(** * sparc.client: the Pennsieve service wrapper

    A shallow embedding of [src/sparc/client/services/pennsieve.py]
    (class [PennsieveService]) and the properties of its request shaping,
    response narrowing and bulk download.

    Python values are a JSON-like inductive type, dictionaries are
    association lists in insertion order, exceptions are an error type, and
    the collaborators the class talks to (the Pennsieve agent, [requests],
    the local file system) are an explicit world that every method threads
    through, answered by an environment of oracles. *)

From Stdlib Require Import List String Ascii ZArith Bool Lia PeanoNat.
Import ListNotations.

Local Open Scope string_scope.
Local Open Scope list_scope.

Set Warnings "-register-all".

(** ** Python values *)

Module Py.

(** The values that reach the wrapper: parsed JSON and keyword arguments.
    Floats and bytes do not occur in the modelled paths. *)
Inductive value : Type :=
| VNone
| VBool (b : bool)
| VInt (z : Z)
| VStr (s : string)
| VList (items : list value)
| VDict (entries : list (string * value)).

(** Exceptions, by class.  [Foreign] is whatever a collaborator raises
    (requests, the agent, the operating system); the wrapper never catches
    anything, so only its propagation matters. *)
Inductive exc : Type :=
| AssertionError (msg : string)
| KeyError (key : string)
| TypeError
| AttributeError
| Foreign (name : string).

Inductive result (A : Type) : Type :=
| Ok (a : A)
| Raise (e : exc).
Arguments Ok {A} a.
Arguments Raise {A} e.

Definition is_raise {A} (r : result A) : bool :=
  match r with Ok _ => false | Raise _ => true end.

Definition rbind {A B} (r : result A) (k : A -> result B) : result B :=
  match r with
  | Ok a => k a
  | Raise e => Raise e
  end.

(** A comprehension [[f(x) for x in xs]]: left to right, the first
    exception aborts it. *)
Fixpoint rmap {A B} (f : A -> result B) (xs : list A) : result (list B) :=
  match xs with
  | [] => Ok []
  | x :: rest =>
      rbind (f x) (fun y => rbind (rmap f rest) (fun ys => Ok (y :: ys)))
  end.

(** [x is None] *)
Definition is_none (v : value) : bool :=
  match v with VNone => true | _ => false end.

(** [type(x) is dict] *)
Definition is_dict (v : value) : bool :=
  match v with VDict _ => true | _ => false end.

(** Dictionary lookup by a string key. *)
Fixpoint lookup (k : string) (d : list (string * value)) : option value :=
  match d with
  | [] => None
  | (k', v) :: rest => if String.eqb k k' then Some v else lookup k rest
  end.

Definition keys (d : list (string * value)) : list string := map fst d.

(** [x[k]] with a string key: only a dict accepts it; a missing key is a
    [KeyError], every other receiver a [TypeError]. *)
Definition getitem (x : value) (k : string) : result value :=
  match x with
  | VDict d => match lookup k d with
               | Some v => Ok v
               | None => Raise (KeyError k)
               end
  | _ => Raise TypeError
  end.

(** [x.get(k)]: the dict method, [None] for a missing key; no other
    modelled type has a [get] attribute. *)
Definition get (x : value) (k : string) : result value :=
  match x with
  | VDict d => Ok (match lookup k d with Some v => v | None => VNone end)
  | _ => Raise AttributeError
  end.

(** [for x in xs]: a list yields its items, a string its characters, a
    dict its keys; the rest is not iterable. *)
Definition chars (s : string) : list value :=
  map (fun c => VStr (String c EmptyString)) (list_ascii_of_string s).

Definition iter (xs : value) : result (list value) :=
  match xs with
  | VList l => Ok l
  | VStr s => Ok (chars s)
  | VDict d => Ok (map VStr (keys d))
  | _ => Raise TypeError
  end.

(** [xs[0]] *)
Definition first (xs : value) : result value :=
  match xs with
  | VList (x :: _) => Ok x
  | VList [] => Raise (Foreign "IndexError")
  | VStr (String c _) => Ok (VStr (String c EmptyString))
  | VStr EmptyString => Raise (Foreign "IndexError")
  | VDict _ => Raise (KeyError "0")
  | _ => Raise TypeError
  end.

(** [s.split(sep)] for a one-character separator: [k] separators give
    [k + 1] segments, empty ones included. *)
Fixpoint split (sep : ascii) (s : string) : list string :=
  match s with
  | EmptyString => [EmptyString]
  | String c rest =>
      if Ascii.eqb c sep then EmptyString :: split sep rest
      else match split sep rest with
           | seg :: segs => String c seg :: segs
           | [] => [String c EmptyString]
           end
  end.

(** ["/".join(segs)] *)
Definition join_slash (segs : list string) : string := String.concat "/" segs.

(** The number of constructors of a value. *)
Fixpoint size (v : value) : nat :=
  match v with
  | VList items => S (list_sum (map size items))
  | VDict entries =>
      S ((fix sizes (d : list (string * value)) : nat :=
            match d with
            | [] => 0
            | (_, x) :: rest => size x + sizes rest
            end) entries)
  | _ => 1
  end.

(** Hashing, as [set(...)] needs it for the members of a tuple. *)
Definition hashable (v : value) : bool :=
  match v with
  | VList _ | VDict _ => false
  | _ => true
  end.

(** [==] on hashable values; [True == 1] and [False == 0] as in Python. *)
Definition as_int (v : value) : option Z :=
  match v with
  | VBool true => Some 1%Z
  | VBool false => Some 0%Z
  | VInt z => Some z
  | _ => None
  end.

Definition eqb (a b : value) : bool :=
  match a, b with
  | VNone, VNone => true
  | VStr s, VStr t => String.eqb s t
  | _, _ => match as_int a, as_int b with
            | Some x, Some y => Z.eqb x y
            | _, _ => false
            end
  end.

Definition pair_eqb (p q : value * value) : bool :=
  eqb (fst p) (fst q) && eqb (snd p) (snd q).

(** [set(pairs)]: members in order of first insertion; an equal member
    already present is kept, an unhashable component is a [TypeError]. *)
Fixpoint set_add (p : value * value) (s : list (value * value)) : list (value * value) :=
  match s with
  | [] => [p]
  | q :: rest => if pair_eqb p q then s else q :: set_add p rest
  end.

Fixpoint set_of (acc : list (value * value)) (ps : list (value * value))
  : result (list (value * value)) :=
  match ps with
  | [] => Ok acc
  | p :: rest =>
      if hashable (fst p) && hashable (snd p)
      then set_of (set_add p acc) rest
      else Raise TypeError
  end.

(** [str + x]: concatenation wants a string on the right. *)
Definition str_add (s : string) (x : value) : result string :=
  match x with
  | VStr t => Ok (String.append s t)
  | _ => Raise TypeError
  end.

(** [s.rfind(c)]: the last index of [c], [-1] when there is none. *)
Fixpoint rfind_from (c : ascii) (s : string) (i last : Z) : Z :=
  match s with
  | EmptyString => last
  | String a rest =>
      rfind_from c rest (i + 1) (if Ascii.eqb a c then i else last)
  end.

Definition rfind (c : ascii) (s : string) : Z := rfind_from c s 0 (-1).

(** [posixpath.splitext] on a string: the extension starts at the last dot
    of the last component, unless only dots precede it there. *)
Definition splitext (p : string) : string * string :=
  let sepIndex := rfind "/"%char p in
  let dotIndex := rfind "."%char p in
  if (sepIndex <? dotIndex)%Z then
    let filenameIndex := Z.to_nat (sepIndex + 1) in
    let dot := Z.to_nat dotIndex in
    let before := substring filenameIndex (dot - filenameIndex) p in
    if existsb (fun c => negb (Ascii.eqb c "."%char)) (list_ascii_of_string before)
    then (substring 0 dot p, substring dot (String.length p - dot) p)
    else (p, EmptyString)
  else (p, EmptyString).

(** [os.path.splitext(x)]: [os.fspath] refuses what is not a path. *)
Definition os_path_splitext (x : value) : result (string * string) :=
  match x with
  | VStr p => Ok (splitext p)
  | _ => Raise TypeError
  end.

(** [t + s] for a tuple [t] and a string [s]: tuples concatenate with
    tuples only. *)
Definition tuple_add_str (t : string * string) (s : string) : result value :=
  Raise TypeError.

End Py.

Import Py.

(** ** The world outside the wrapper *)

(** A call of [requests.post(url, json=..., headers=...)]. *)
Record Request : Type := {
  req_url : string;
  req_json : value;
  req_headers : list (string * string)
}.

(** What [requests.post] returns; the wrapper reads [content] only. *)
Record Response : Type := {
  status_code : Z;
  content : string
}.

(** Calls on the [pennsieve2.Pennsieve] object. *)
Inductive AgentCall : Type :=
| AgentNew
| AgentConnect (profile : option value)
| AgentGet (url : string) (headers : list (string * string))
           (params : list (string * value)).

(** Everything a method can change: the HTTP requests sent directly, the
    calls made on the agent, and the files on disk (path and bytes). Logs
    grow at the end. *)
Record World : Type := {
  http_log : list Request;
  agent_log : list AgentCall;
  disk : list (string * string)
}.

Definition log_http (r : Request) (w : World) : World :=
  {| http_log := http_log w ++ [r]; agent_log := agent_log w; disk := disk w |}.

Definition log_agent (c : AgentCall) (w : World) : World :=
  {| http_log := http_log w; agent_log := agent_log w ++ [c]; disk := disk w |}.

Fixpoint disk_put (path data : string) (d : list (string * string))
  : list (string * string) :=
  match d with
  | [] => [(path, data)]
  | (p, old) :: rest =>
      if String.eqb path p then (p, data) :: rest
      else (p, old) :: disk_put path data rest
  end.

Fixpoint disk_get (path : string) (d : list (string * string)) : option string :=
  match d with
  | [] => None
  | (p, data) :: rest => if String.eqb path p then Some data else disk_get path rest
  end.

Definition write_disk (path data : string) (w : World) : World :=
  {| http_log := http_log w; agent_log := agent_log w;
     disk := disk_put path data (disk w) |}.

Definition set_disk (d : list (string * string)) (w : World) : World :=
  {| http_log := http_log w; agent_log := agent_log w; disk := d |}.

(** The handle of the agent object. *)
Definition Handle : Type := nat.

(** How the collaborators answer, given the world so far.  Every theorem
    is for all environments; a test double is one of them. *)
Record Env : Type := {
  agent_new : World -> result Handle;
  agent_connect : World -> Handle -> option value -> result unit;
  agent_get : World -> Handle -> string -> list (string * string)
              -> list (string * value) -> result value;
  requests_post : World -> Request -> result Response;
  open_error : World -> string -> option exc;
  write_error : World -> string -> string -> option (exc * string);
  fd_write : World -> Z -> string -> result unit * list (string * string)
}.

(** ** State and exceptions *)

Definition M (A : Type) : Type := World -> result A * World.

Definition ret {A} (a : A) : M A := fun w => (Ok a, w).

Definition raise {A} (e : exc) : M A := fun w => (Raise e, w).

Definition lift {A} (r : result A) : M A := fun w => (r, w).

Definition bind {A B} (m : M A) (k : A -> M B) : M B :=
  fun w =>
    match m w with
    | (Ok a, w') => k a w'
    | (Raise e, w') => (Raise e, w')
    end.

Declare Scope py_scope.
Delimit Scope py_scope with py.
Notation "x <- m ;; k" := (bind m (fun x => k))
  (at level 61, m at next level, right associativity) : py_scope.
Notation "m ;;; k" := (bind m (fun _ => k))
  (at level 61, right associativity) : py_scope.
Notation "x <~ r ;; k" := (rbind r (fun x => k))
  (at level 61, r at next level, right associativity) : py_scope.
Local Open Scope py_scope.

(** The effectful primitives. *)
Definition new_agent (env : Env) : M Handle :=
  fun w => (agent_new env w, log_agent AgentNew w).

Definition call_connect (env : Env) (h : Handle) (profile : option value) : M unit :=
  fun w => (agent_connect env w h profile, log_agent (AgentConnect profile) w).

Definition call_get (env : Env) (h : Handle) (url : string)
    (headers : list (string * string)) (params : list (string * value)) : M value :=
  fun w => (agent_get env w h url headers params,
            log_agent (AgentGet url headers params) w).

Definition call_post (env : Env) (r : Request) : M Response :=
  fun w => (requests_post env w r, log_http r w).


(** [with open(name, mode="wb+") as f: f.write(data)].

    A string is a path.  [open] may refuse it ([open_error]), and then
    nothing is created.  Otherwise the file is created or truncated, and
    the write, or the flush when the block closes the file, may still fail
    ([write_error]): the exception propagates and the file stays, holding
    what reached it.  Otherwise the file holds [data].

    An integer is an open file descriptor: a negative one is refused;
    what writing to another one does, and to which file if any, is the
    environment's to say ([fd_write] gives the outcome and the disk
    afterwards).  Anything else is not a path. *)
Definition write_path (env : Env) (path data : string) : M unit :=
  fun w => match open_error env w path with
           | Some e => (Raise e, w)
           | None =>
               match write_error env w path data with
               | Some (e, stored) => (Raise e, write_disk path stored w)
               | None => (Ok tt, write_disk path data w)
               end
           end.

Definition write_fd (env : Env) (fd : Z) (data : string) : M unit :=
  if (fd <? 0)%Z then raise (Foreign "ValueError")
  else fun w => (fst (fd_write env w fd data),
                 set_disk (snd (fd_write env w fd data)) w).

Definition open_write (env : Env) (name : value) (data : string) : M unit :=
  match name with
  | VStr path => write_path env path data
  | VInt fd => write_fd env fd data
  | VBool b => write_fd env (if b then 1%Z else 0%Z) data
  | _ => raise TypeError
  end.

(** ** The service *)

(** An instance: [self.profile_name] and [self.Pennsieve]. *)
Record PennsieveService : Type := {
  profile_name : value;
  Pennsieve : Handle
}.

Definition default_headers : list (string * string) :=
  [("Content-Type", "application/json");
   ("Accept", "application/json; charset=utf-8")].

Definition host_api : string := "https://api.pennsieve.io".

(** A keyword argument: [None] when the caller leaves it out, and then the
    default of the signature is bound. *)
Definition kw (given : option value) (default : value) : value :=
  match given with
  | Some v => v
  | None => default
  end.

(** [connect(self)] *)
Definition connect (env : Env) (self : PennsieveService) : M Handle :=
  (if negb (is_none (profile_name self))
   then call_connect env (Pennsieve self) (Some (profile_name self))
   else call_connect env (Pennsieve self) None) ;;;
  ret (Pennsieve self).

(** [__init__(self, config=None, connect=False)], as the constructor call
    [PennsieveService(config, connect)]: the instance when [__init__]
    returns, the exception otherwise.  The [logging] calls leave no trace in
    the world; the argument of [logging.info] is still evaluated. *)
Definition init (env : Env) (config : value) (connect_flag : bool)
  : M PennsieveService :=
  h <- new_agent env ;;
  name <- (if negb (is_none config)
           then (p <- lift (get config "pennsieve_profile_name") ;;
                 lift (str_add "Profile: " p) ;;;
                 ret p)
           else ret VNone) ;;
  let self := {| profile_name := name; Pennsieve := h |} in
  (if connect_flag then (connect env self ;;; ret tt) else ret tt) ;;;
  ret self.

(** The [params] dictionaries, in the order the source writes them. *)
Definition list_datasets_params
    (limit offset query organization organization_id tags embargo
     order_by order_direction : option value) : list (string * value) :=
  [("limit", kw limit (VInt 10));
   ("offset", kw offset (VInt 0));
   ("query", kw query VNone);
   ("organization", kw organization VNone);
   ("organizationId", kw organization_id VNone);
   ("tags", kw tags VNone);
   ("embargo", kw embargo VNone);
   ("orderBy", kw order_by VNone);
   ("orderDirection", kw order_direction VNone)].

Definition list_files_params
    (limit offset file_type query organization organization_id dataset_id
     : option value) : list (string * value) :=
  [("limit", kw limit (VInt 10));
   ("offset", kw offset (VInt 0));
   ("fileType", kw file_type VNone);
   ("query", kw query VNone);
   ("organization", kw organization VNone);
   ("organizationId", kw organization_id VNone);
   ("datasetId", kw dataset_id VNone)].

Definition list_records_params
    (limit offset model organization dataset_id : option value)
  : list (string * value) :=
  [("limit", kw limit (VInt 10));
   ("offset", kw offset (VInt 0));
   ("model", kw model VNone);
   ("organization", kw organization VNone);
   ("datasetId", kw dataset_id VNone)].

(** [self.host_api + "/discover/search/..."] *)
Definition datasets_url : string :=
  String.append host_api "/discover/search/datasets".

Definition files_url : string :=
  String.append host_api "/discover/search/files".

Definition records_url : string :=
  String.append host_api "/discover/search/records".

(** [list_datasets(self, limit=10, offset=0, query=None, ...)] *)
Definition list_datasets (env : Env) (self : PennsieveService)
    (limit offset query organization organization_id tags embargo
     order_by order_direction : option value) : M value :=
  call_get env (Pennsieve self)
    datasets_url
    default_headers
    (list_datasets_params limit offset query organization organization_id
       tags embargo order_by order_direction).

(** [list_files(self, limit=10, offset=0, file_type=None, ...)]: the
    response subscripted with ["files"]. *)
Definition list_files (env : Env) (self : PennsieveService)
    (limit offset file_type query organization organization_id dataset_id
     : option value) : M value :=
  body <- call_get env (Pennsieve self)
            files_url
            default_headers
            (list_files_params limit offset file_type query organization
               organization_id dataset_id) ;;
  lift (getitem body "files").

(** ["/".join(uri.split("/")[5:])], the expression [list_filenames] and
    [download_file] both apply to a [uri]: on a string, and on a value
    ([split] is a method of strings only). *)
Definition relative_path (uri : string) : string :=
  join_slash (skipn 5 (split "/"%char uri)).

Definition uri_path (uri : value) : result value :=
  match uri with
  | VStr s => Ok (VStr (relative_path s))
  | _ => Raise AttributeError
  end.

(** [lambda x: "/".join(x["uri"].split("/")[5:])] *)
Definition filename_of (x : value) : result value :=
  uri <~ getitem x "uri" ;;
  uri_path uri.

(** [list_filenames(self, ...)]: [list(map(lambda ..., response))] over
    what [list_files] returns for the same arguments. *)
Definition list_filenames (env : Env) (self : PennsieveService)
    (limit offset file_type query organization organization_id dataset_id
     : option value) : M value :=
  response <- list_files env self (Some (kw limit (VInt 10)))
                (Some (kw offset (VInt 0))) (Some (kw file_type VNone))
                (Some (kw query VNone)) (Some (kw organization VNone))
                (Some (kw organization_id VNone))
                (Some (kw dataset_id VNone)) ;;
  items <- lift (iter response) ;;
  names <- lift (rmap filename_of items) ;;
  ret (VList names).

(** [list_records(self, limit=10, offset=0, model=None, ...)] *)
Definition list_records (env : Env) (self : PennsieveService)
    (limit offset model organization dataset_id : option value) : M value :=
  call_get env (Pennsieve self)
    records_url
    default_headers
    (list_records_params limit offset model organization dataset_id).

(** The entries of a [params] mapping that carry a value, and whether any
    entry carries the text ["None"]. *)
Definition present (params : list (string * value)) : list (string * value) :=
  filter (fun kv => negb (is_none (snd kv))) params.

Definition sends_none_text (params : list (string * value)) : bool :=
  existsb (fun kv => match snd kv with
                     | VStr s => String.eqb s "None"
                     | _ => false
                     end) params.

(** Whether the caller gave an argument as the text ["None"]. *)
Definition given_none_text (given : option value) : bool :=
  match given with
  | Some (VStr s) => String.eqb s "None"
  | _ => false
  end.

(** *** download_file *)

Definition mixed_batch_message : string :=
  "Downloading files from multiple datasets or dataset versions is not supported.".

(** [(x["datasetId"], x["datasetVersion"])] *)
Definition dataset_pair (x : value) : result (value * value) :=
  id <~ getitem x "datasetId" ;;
  version <~ getitem x "datasetVersion" ;;
  Ok (id, version).

(** [x if x.get("uri") is None else "/".join(x.get("uri").split("/")[5:])] *)
Definition path_of (x : value) : result value :=
  uri <~ get x "uri" ;;
  if is_none uri then Ok x
  else (uri' <~ get x "uri" ;; uri_path uri').

(** The request body of the packaging call. *)
Definition zipit_json (paths : list value) (id version : value) : value :=
  VDict [("data", VDict [("paths", VList paths);
                         ("datasetId", id);
                         ("version", version)])].

Definition zipit_request (paths : list value) (id version : value) : Request :=
  {| req_url := "https://api.pennsieve.io/zipit/discover";
     req_json := zipit_json paths id version;
     req_headers := [("content-type", "application/json")] |}.

(** [next(iter(properties))] *)
Definition next_iter (properties : list (value * value)) : result (value * value) :=
  match properties with
  | p :: _ => Ok p
  | [] => Raise (Foreign "StopIteration")
  end.

(** The default output name, when [output_name is None]:
    [file_list[0]['name'] if len(paths) == 1
     else os.path.splitext(file_list[0]) + ".gz"]. *)
Definition default_output_name (file_list : value) (paths : list value)
  : result value :=
  if Nat.eqb (List.length paths) 1
  then (x0 <~ first file_list ;; getitem x0 "name")
  else (x0 <~ first file_list ;;
        parts <~ os_path_splitext x0 ;;
        tuple_add_str parts ".gz").

(** [download_file(self, file_list, output_name=None)] *)
Definition download_file (env : Env) (self : PennsieveService)
    (file_list output_name : value) : M Response :=
  let file_list := if is_dict file_list then VList [file_list] else file_list in
  xs <- lift (iter file_list) ;;
  pairs <- lift (rmap dataset_pair xs) ;;
  properties <- lift (set_of [] pairs) ;;
  paths <- lift (rmap path_of xs) ;;
  if negb (Nat.eqb (List.length properties) 1)
  then raise (AssertionError mixed_batch_message)
  else
    id_version <- lift (next_iter properties) ;;
    response <- call_post env
                  (zipit_request paths (fst id_version) (snd id_version)) ;;
    output_name <- (if is_none output_name
                    then lift (default_output_name file_list paths)
                    else ret output_name) ;;
    open_write env output_name (content response) ;;;
    ret response.

(** A file descriptor, as the search returns it and the download takes
    it: a dict with a hashable [datasetId] and [datasetVersion], and a
    [uri] that is a string, [None] or missing. *)
Definition descriptor (x : value) : bool :=
  match x with
  | VDict d =>
      match lookup "datasetId" d, lookup "datasetVersion" d with
      | Some id, Some version =>
          hashable id && hashable version
          && match lookup "uri" d with
             | None | Some VNone | Some (VStr _) => true
             | Some _ => false
             end
      | _, _ => false
      end
  | _ => false
  end.

(** The run of [download_file] in its stages.  [batch_of] is the first
    assignment; [download_request] is everything up to the payload, where
    nothing outside the call is touched; [resolve_output_name] is the name
    the body is written under. *)
Definition batch_of (file_list : value) : value :=
  if is_dict file_list then VList [file_list] else file_list.

Definition download_request (file_list : value) : result (Request * list value) :=
  xs <~ iter (batch_of file_list) ;;
  pairs <~ rmap dataset_pair xs ;;
  properties <~ set_of [] pairs ;;
  paths <~ rmap path_of xs ;;
  if negb (Nat.eqb (List.length properties) 1)
  then Raise (AssertionError mixed_batch_message)
  else (id_version <~ next_iter properties ;;
        Ok (zipit_request paths (fst id_version) (snd id_version), paths)).

Definition resolve_output_name (file_list output_name : value)
    (paths : list value) : result value :=
  if is_none output_name
  then default_output_name (batch_of file_list) paths
  else Ok output_name.

(** Both members of a pair can be hashed. *)
Definition hashable_pair (p : value * value) : bool :=
  hashable (fst p) && hashable (snd p).

(** ** Test doubles *)

Definition empty_world : World :=
  {| http_log := []; agent_log := []; disk := [] |}.

(** An agent that answers every GET with [body], a packaging service that
    answers every POST with [resp], a disk that accepts every path and
    every write, and a process with no open file descriptor. *)
Definition double (body : value) (resp : Response) : Env :=
  {| agent_new := fun _ => Ok 0;
     agent_connect := fun _ _ _ => Ok tt;
     agent_get := fun _ _ _ _ _ => Ok body;
     requests_post := fun _ _ => Ok resp;
     open_error := fun _ _ => None;
     write_error := fun _ _ _ => None;
     fd_write := fun w _ _ => (Raise (Foreign "OSError"), disk w) |}.

(** An agent that knows one profile, [known], and rejects every other
    name; a connect without a name is accepted. *)
Definition picky (known : string) : Env :=
  {| agent_new := fun _ => Ok 0;
     agent_connect := fun _ _ profile =>
       match profile with
       | None => Ok tt
       | Some (VStr name) =>
           if String.eqb name known then Ok tt
           else Raise (Foreign "ProfileNotFound")
       | Some _ => Raise (Foreign "ProfileNotFound")
       end;
     agent_get := fun _ _ _ _ _ => Raise (Foreign "DelegateUnavailable");
     requests_post := fun _ _ => Raise (Foreign "ConnectionError");
     open_error := fun _ _ => None;
     write_error := fun _ _ _ => None;
     fd_write := fun w _ _ => (Raise (Foreign "OSError"), disk w) |}.

(** A packaging service that answers with the request's own url as the
    body, and only to requests for dataset [id]; a disk on which every
    write of more than [room] bytes fails, leaving the first [room]; and
    file descriptor 3 open on the file [fd3]. *)
Definition echo (id : Z) (room : nat) (fd3 : string) : Env :=
  {| agent_new := fun _ => Ok 0;
     agent_connect := fun _ _ _ => Ok tt;
     agent_get := fun _ _ _ _ _ => Raise (Foreign "DelegateUnavailable");
     requests_post := fun _ req =>
       match req_json req with
       | VDict [("data", VDict [_; ("datasetId", VInt i); _])] =>
           if Z.eqb i id
           then Ok {| status_code := 200; content := req_url req |}
           else Raise (Foreign "HTTPError")
       | _ => Raise (Foreign "HTTPError")
       end;
     open_error := fun _ _ => None;
     write_error := fun _ _ data =>
       if Nat.leb (String.length data) room then None
       else Some (Foreign "OSError", substring 0 room data);
     fd_write := fun w fd data =>
       if Z.eqb fd 3 then (Ok tt, disk_put fd3 data (disk w))
       else (Raise (Foreign "OSError"), disk w) |}.

Definition archive : Response := {| status_code := 200; content := "PK" |}.

Definition service (name : value) : PennsieveService :=
  {| profile_name := name; Pennsieve := 0 |}.

Definition file_entry (id version : Z) (uri name : string) : value :=
  VDict [("datasetId", VInt id); ("datasetVersion", VInt version);
         ("uri", VStr uri); ("name", VStr name)].

Definition files_body (files : list value) : value :=
  VDict [("limit", VInt 10); ("offset", VInt 0);
         ("totalCount", VInt (Z.of_nat (List.length files)));
         ("files", VList files)].

(** ** Proof automation *)

(** Case analysis on [eqb]: split the booleans, turn the tests on integers
    and strings into equations. *)
Ltac eqb_cases :=
  repeat match goal with
         | b : bool |- _ => destruct b
         end;
  cbv beta iota delta [eqb as_int hashable] in *; try congruence;
  repeat match goal with
         | H : Z.eqb _ _ = true |- _ => apply Z.eqb_eq in H; subst
         | H : String.eqb _ _ = true |- _ => apply String.eqb_eq in H; subst
         end;
  try congruence;
  try apply Z.eqb_refl; try apply String.eqb_refl.

(** ** Facts about the Python layer *)

Example split_empty : split "/"%char "" = [""].
Proof. reflexivity. Qed.

Example split_keeps_empty_segments :
  split "/"%char "a//b/" = ["a"; ""; "b"; ""].
Proof. reflexivity. Qed.

Example join_three : join_slash ["a"; ""; "b"] = "a//b".
Proof. reflexivity. Qed.

Example splitext_cases :
  splitext "x/y.tar.gz" = ("x/y.tar", ".gz")
  /\ splitext "a/b.c/.bashrc" = ("a/b.c/.bashrc", "")
  /\ splitext "foo." = ("foo", ".").
Proof. repeat split. Qed.

(** [split] never returns the empty list. *)
Lemma split_nonempty (sep : ascii) (s : string) : split sep s <> [].
Proof.
  destruct s as [| c rest]; simpl; [discriminate |].
  destruct (Ascii.eqb c sep); [discriminate |].
  destruct (split sep rest); discriminate.
Qed.

Lemma skipn_short {A} (n : nat) (l : list A) :
  (List.length l <= n)%nat -> skipn n l = [].
Proof.
  revert l; induction n as [| n IH]; intros [| x l] Hlen; simpl in *;
    try reflexivity; try lia.
  apply IH; lia.
Qed.

(** A uri of at most five segments has nothing left after the cut. *)
Lemma relative_path_short (uri : string) :
  (List.length (split "/"%char uri) <= 5)%nat -> relative_path uri = "".
Proof.
  intros Hlen. unfold relative_path. now rewrite skipn_short.
Qed.

Lemma rmap_length {A B} (f : A -> result B) (xs : list A) (ys : list B) :
  rmap f xs = Ok ys -> List.length ys = List.length xs.
Proof.
  revert ys; induction xs as [| x xs IH]; intros ys H; simpl in H.
  - now inversion H.
  - destruct (f x) as [y | e]; simpl in H; [| discriminate].
    destruct (rmap f xs) as [ys' | e]; simpl in H; [| discriminate].
    inversion H; subst; simpl. f_equal. now apply IH.
Qed.

Lemma rmap_nth {A B} (f : A -> result B) (xs : list A) (ys : list B) :
  rmap f xs = Ok ys ->
  forall i x, nth_error xs i = Some x ->
    exists y, f x = Ok y /\ nth_error ys i = Some y.
Proof.
  revert ys; induction xs as [| x0 xs IH]; intros ys H i x Hx.
  - destruct i; discriminate.
  - simpl in H.
    destruct (f x0) as [y0 | e] eqn:Hf; simpl in H; [| discriminate].
    destruct (rmap f xs) as [ys' | e]; simpl in H; [| discriminate].
    inversion H; subst; clear H.
    destruct i as [| i]; simpl in *.
    + inversion Hx; subst. now exists y0.
    + now apply IH.
Qed.

Lemma rmap_total {A B} (f : A -> result B) (xs : list A) :
  Forall (fun x => exists y, f x = Ok y) xs -> exists ys, rmap f xs = Ok ys.
Proof.
  induction 1 as [| x xs [y Hy] _ [ys Hys]]; simpl.
  - now exists [].
  - rewrite Hy, Hys. simpl. now exists (y :: ys).
Qed.

Lemma rmap_in {A B} (f : A -> result B) (xs : list A) (ys : list B) :
  rmap f xs = Ok ys ->
  forall x y, In x xs -> f x = Ok y -> In y ys.
Proof.
  revert ys; induction xs as [| x0 xs IH]; intros ys H x y Hin Hf.
  - destruct Hin.
  - simpl in H.
    destruct (f x0) as [y0 | e] eqn:Hf0; simpl in H; [| discriminate].
    destruct (rmap f xs) as [ys' | e]; simpl in H; [| discriminate].
    inversion H; subst; clear H.
    destruct Hin as [-> | Hin].
    + left. congruence.
    + right. now apply (IH ys' eq_refl x y).
Qed.

(** A member of a dict is smaller than the dict. *)
Lemma lookup_size (k : string) (d : list (string * value)) (v : value) :
  lookup k d = Some v -> (size v < size (VDict d))%nat.
Proof.
  induction d as [| [k' x] rest IH]; simpl; [discriminate |].
  destruct (String.eqb k k').
  - intros H; inversion H; subst. lia.
  - intros H. specialize (IH H). simpl in IH. lia.
Qed.

Lemma lookup_not_self (k : string) (d : list (string * value)) (v : value) :
  lookup k d = Some v -> v <> VDict d.
Proof.
  intros H ->. apply lookup_size in H. lia.
Qed.

(** *** Equality and sets of hashable values *)

Lemma eqb_refl (a : value) : hashable a = true -> eqb a a = true.
Proof. destruct a; intros H; eqb_cases. Qed.

Lemma eqb_sym (a b : value) : eqb a b = true -> eqb b a = true.
Proof. destruct a, b; intros H; eqb_cases. Qed.

Lemma eqb_trans (a b c : value) :
  eqb a b = true -> eqb b c = true -> eqb a c = true.
Proof. destruct a, b, c; intros H1 H2; eqb_cases. Qed.

Lemma pair_eqb_refl (p : value * value) :
  hashable_pair p = true -> pair_eqb p p = true.
Proof.
  unfold hashable_pair, pair_eqb. intros H.
  apply andb_true_iff in H as [H1 H2].
  now rewrite !eqb_refl.
Qed.

Lemma pair_eqb_sym (p q : value * value) :
  pair_eqb p q = true -> pair_eqb q p = true.
Proof.
  unfold pair_eqb. intros H. apply andb_true_iff in H as [H1 H2].
  now rewrite (eqb_sym _ _ H1), (eqb_sym _ _ H2).
Qed.

Lemma pair_eqb_trans (p q r : value * value) :
  pair_eqb p q = true -> pair_eqb q r = true -> pair_eqb p r = true.
Proof.
  unfold pair_eqb. intros H K.
  apply andb_true_iff in H as [H1 H2]. apply andb_true_iff in K as [K1 K2].
  now rewrite (eqb_trans _ _ _ H1 K1), (eqb_trans _ _ _ H2 K2).
Qed.

(** Adding to a set keeps its members and leaves a member equal to the
    one added. *)
Lemma set_add_keeps (p q : value * value) (s : list (value * value)) :
  In q s -> In q (set_add p s).
Proof.
  induction s as [| r s IH]; simpl; [tauto |].
  destruct (pair_eqb p r); simpl; tauto.
Qed.

Lemma set_add_has (p : value * value) (s : list (value * value)) :
  hashable_pair p = true ->
  exists q, In q (set_add p s) /\ pair_eqb p q = true.
Proof.
  intros Hp. induction s as [| r s [q [Hin Heq]]]; simpl.
  - exists p. split; [now left | now apply pair_eqb_refl].
  - destruct (pair_eqb p r) eqn:Hpr.
    + exists r. split; [now left | assumption].
    + exists q. split; [now right | assumption].
Qed.

Lemma set_add_nonempty (p : value * value) (s : list (value * value)) :
  set_add p s <> [].
Proof.
  destruct s as [| r s]; simpl; [discriminate |].
  destruct (pair_eqb p r); discriminate.
Qed.

Lemma set_of_keeps (ps acc s : list (value * value)) (q : value * value) :
  set_of acc ps = Ok s -> In q acc -> In q s.
Proof.
  revert acc; induction ps as [| p ps IH]; intros acc H Hin; simpl in H.
  - now inversion H; subst.
  - destruct (hashable (fst p) && hashable (snd p)); [| discriminate].
    apply (IH _ H). now apply set_add_keeps.
Qed.

Lemma set_of_has (ps acc s : list (value * value)) (p : value * value) :
  set_of acc ps = Ok s -> In p ps ->
  exists q, In q s /\ pair_eqb p q = true.
Proof.
  revert acc; induction ps as [| p0 ps IH]; intros acc H Hin; simpl in H.
  - destruct Hin.
  - destruct (hashable (fst p0) && hashable (snd p0)) eqn:Hh; [| discriminate].
    destruct Hin as [-> | Hin].
    + destruct (set_add_has p acc Hh) as [q [Hq Heq]].
      exists q. split; [| assumption]. now apply (set_of_keeps _ _ _ _ H).
    + now apply (IH _ H).
Qed.

Lemma set_of_total (ps acc : list (value * value)) :
  forallb hashable_pair ps = true -> exists s, set_of acc ps = Ok s.
Proof.
  revert acc; induction ps as [| p ps IH]; intros acc H; simpl in *.
  - now exists acc.
  - apply andb_true_iff in H as [Hp Hps]. unfold hashable_pair in Hp.
    rewrite Hp. now apply IH.
Qed.

(** Two members of the input that differ make a set of two or more. *)
Lemma set_of_two (ps s : list (value * value)) (p q : value * value) :
  set_of [] ps = Ok s -> In p ps -> In q ps -> pair_eqb p q = false ->
  Nat.eqb (List.length s) 1 = false.
Proof.
  intros H Hp Hq Hne.
  destruct (set_of_has _ _ _ _ H Hp) as [p' [Hp' Hpp]].
  destruct (set_of_has _ _ _ _ H Hq) as [q' [Hq' Hqq]].
  destruct s as [| r [| r' s]]; simpl in *; try reflexivity.
  destruct Hp' as [-> | []], Hq' as [-> | []].
  rewrite (pair_eqb_trans _ _ _ Hpp (pair_eqb_sym _ _ Hqq)) in Hne.
  discriminate.
Qed.

(** ** Bulk download *)

Lemma descriptor_pair (x : value) :
  descriptor x = true ->
  exists p, dataset_pair x = Ok p /\ hashable_pair p = true.
Proof.
  destruct x as [| | | | |d]; simpl; try discriminate.
  unfold dataset_pair, hashable_pair; simpl.
  destruct (lookup "datasetId" d) as [id |]; [| discriminate].
  destruct (lookup "datasetVersion" d) as [version |]; [| discriminate].
  intros H. apply andb_true_iff in H as [H _].
  exists (id, version). now split.
Qed.

Lemma descriptor_path (x : value) :
  descriptor x = true -> exists p, path_of x = Ok p.
Proof.
  destruct x as [| | | | |d]; simpl; try discriminate.
  unfold path_of; simpl.
  destruct (lookup "datasetId" d); [| discriminate].
  destruct (lookup "datasetVersion" d); [| discriminate].
  destruct (lookup "uri" d) as [[| | | uri | |] |]; simpl;
    rewrite ?andb_false_r; try discriminate; intros _; eauto.
Qed.

Lemma descriptors_pairs (files : list value) :
  forallb descriptor files = true ->
  exists pairs, rmap dataset_pair files = Ok pairs
                /\ forallb hashable_pair pairs = true.
Proof.
  induction files as [| x files IH]; simpl; intros H.
  - now exists [].
  - apply andb_true_iff in H as [Hx Hfiles].
    destruct (descriptor_pair x Hx) as [p [Hp Hh]].
    destruct (IH Hfiles) as [pairs [Hpairs Hall]].
    rewrite Hp, Hpairs; simpl. exists (p :: pairs).
    split; [reflexivity | simpl; now rewrite Hh].
Qed.

Lemma descriptors_paths (files : list value) :
  forallb descriptor files = true -> exists paths, rmap path_of files = Ok paths.
Proof.
  intros H. apply rmap_total. apply Forall_forall. intros x Hx.
  apply descriptor_path. rewrite forallb_forall in H. now apply H.
Qed.

(** C1: a batch of descriptors in which two have differing
    [(datasetId, datasetVersion)] pairs fails on the assertion over the set
    of distinct pairs; no request is sent and no file is written, the world
    is as it was. *)
Theorem download_file_mixed_batch :
  forall env self files output_name w x y p q,
    forallb descriptor files = true ->
    In x files -> In y files ->
    dataset_pair x = Ok p -> dataset_pair y = Ok q ->
    pair_eqb p q = false ->
    download_file env self (VList files) output_name w
    = (Raise (AssertionError mixed_batch_message), w).
Proof.
  intros env self files output_name w x y p q Hd Hx Hy Hp Hq Hne.
  destruct (descriptors_pairs files Hd) as [pairs [Hpairs Hhash]].
  destruct (set_of_total pairs [] Hhash) as [s Hs].
  destruct (descriptors_paths files Hd) as [paths Hpaths].
  assert (Hlen : Nat.eqb (List.length s) 1 = false).
  { apply (set_of_two pairs s p q Hs); try assumption.
    - now apply (rmap_in _ _ _ Hpairs x).
    - now apply (rmap_in _ _ _ Hpairs y). }
  unfold download_file, bind, lift; simpl.
  now rewrite Hpairs, Hs, Hpaths, Hlen.
Qed.

Lemma download_file_mixed_batch_witness :
  download_file (double VNone archive) (service VNone)
    (VList [file_entry 11 2 "s3://bucket/11/2/files/a.csv" "a.csv";
            file_entry 11 3 "s3://bucket/11/3/files/a.csv" "a.csv"])
    VNone empty_world
  = (Raise (AssertionError mixed_batch_message), empty_world).
Proof.
  apply (download_file_mixed_batch _ _ _ _ _
           (file_entry 11 2 "s3://bucket/11/2/files/a.csv" "a.csv")
           (file_entry 11 3 "s3://bucket/11/3/files/a.csv" "a.csv")
           (VInt 11, VInt 2) (VInt 11, VInt 3)).
  - reflexivity.
  - left; reflexivity.
  - right; left; reflexivity.
  - reflexivity.
  - reflexivity.
  - reflexivity.
Defined.

(** C9: an empty batch makes an empty set of pairs, which is not of size
    one: the same assertion fails with the same message, before any request
    or write. *)
Theorem download_file_empty_batch :
  forall env self output_name w,
    (exists properties,
        set_of [] [] = Ok properties /\ List.length properties = 0%nat)
    /\ download_file env self (VList []) output_name w
       = (Raise (AssertionError mixed_batch_message), w).
Proof.
  intros env self output_name w. split.
  - now exists [].
  - reflexivity.
Qed.

(** C3, where the code departs from it: with no [output_name] and two or
    more files the default name is [os.path.splitext(file_list[0]) + ".gz"],
    which raises on every input, so the call ends in an exception and the
    disk is never written; on a valid pair of descriptors the request has
    been sent by then and the exception is a [TypeError]. *)
Theorem download_file_multi_default_name :
  (forall env self x0 x1 rest w,
      is_raise (fst (download_file env self (VList (x0 :: x1 :: rest)) VNone w))
      = true
      /\ disk (snd (download_file env self (VList (x0 :: x1 :: rest)) VNone w))
         = disk w)
  /\ download_file (double VNone archive) (service VNone)
       (VList [file_entry 11 2 "s3://bucket/11/2/files/a.csv" "a.csv";
               file_entry 11 2 "s3://bucket/11/2/files/b.csv" "b.csv"])
       VNone empty_world
     = (Raise TypeError,
        log_http (zipit_request [VStr "files/a.csv"; VStr "files/b.csv"]
                    (VInt 11) (VInt 2)) empty_world).
Proof.
  split; [| reflexivity].
  intros env self x0 x1 rest w.
  unfold download_file, bind, lift, raise, call_post.
  cbn [is_dict iter].
  destruct (rmap dataset_pair (x0 :: x1 :: rest)) as [pairs | e]; [| now split].
  destruct (set_of [] pairs) as [s | e]; [| now split].
  destruct (rmap path_of (x0 :: x1 :: rest)) as [paths | e] eqn:Hpaths;
    [| now split].
  destruct (negb (Nat.eqb (List.length s) 1)); [now split |].
  destruct (next_iter s) as [id_version | e]; [| now split].
  destruct (requests_post env w _) as [response | e]; [| now split].
  cbn [is_none]. unfold default_output_name.
  rewrite (rmap_length _ _ _ Hpaths). cbn [List.length Nat.eqb first rbind].
  destruct x0; now split.
Qed.

(** The two branches of the output name that do work: a supplied
    [output_name], and the [name] of the only file of a batch. *)
Lemma download_file_output_name_supplied :
  forall env self files name w pairs p paths response,
    rmap dataset_pair files = Ok pairs ->
    set_of [] pairs = Ok [p] ->
    rmap path_of files = Ok paths ->
    requests_post env w (zipit_request paths (fst p) (snd p)) = Ok response ->
    open_error env (log_http (zipit_request paths (fst p) (snd p)) w) name
    = None ->
    write_error env (log_http (zipit_request paths (fst p) (snd p)) w) name
      (content response) = None ->
    download_file env self (VList files) (VStr name) w
    = (Ok response,
       write_disk name (content response)
         (log_http (zipit_request paths (fst p) (snd p)) w)).
Proof.
  intros env self files name w pairs p paths response
    Hpairs Hs Hpaths Hpost Hopen Hwrite.
  unfold download_file, bind, lift, call_post, open_write, write_path; simpl.
  rewrite Hpairs, Hs, Hpaths; simpl.
  now rewrite Hpost, Hopen, Hwrite.
Qed.

Lemma download_file_single_default_name :
  forall env self d name w p path response,
    dataset_pair (VDict d) = Ok p ->
    hashable_pair p = true ->
    path_of (VDict d) = Ok path ->
    lookup "name" d = Some (VStr name) ->
    requests_post env w (zipit_request [path] (fst p) (snd p)) = Ok response ->
    open_error env (log_http (zipit_request [path] (fst p) (snd p)) w) name
    = None ->
    write_error env (log_http (zipit_request [path] (fst p) (snd p)) w) name
      (content response) = None ->
    download_file env self (VList [VDict d]) VNone w
    = (Ok response,
       write_disk name (content response)
         (log_http (zipit_request [path] (fst p) (snd p)) w)).
Proof.
  intros env self d name w p path response Hp Hh Hpath Hname Hpost Hopen Hwrite.
  unfold hashable_pair in Hh.
  unfold download_file, bind, lift, call_post, open_write, write_path.
  cbn [is_dict iter rmap rbind].
  rewrite Hp, Hpath. cbn [rbind set_of]. rewrite Hh.
  cbn [set_add set_of List.length Nat.eqb negb next_iter fst snd].
  rewrite Hpost. cbn [is_none default_output_name List.length Nat.eqb first rbind getitem].
  rewrite Hname. now rewrite Hopen, Hwrite.
Qed.

(** Reading the destination back gives the body of the response. *)
Lemma disk_get_put (path data : string) (d : list (string * string)) :
  disk_get path (disk_put path data d) = Some data.
Proof.
  induction d as [| [p old] rest IH]; simpl.
  - now rewrite String.eqb_refl.
  - destruct (String.eqb path p) eqn:Hp; simpl; now rewrite Hp.
Qed.

Lemma download_file_reads_back :
  forall env self files name w pairs p paths response,
    rmap dataset_pair files = Ok pairs ->
    set_of [] pairs = Ok [p] ->
    rmap path_of files = Ok paths ->
    requests_post env w (zipit_request paths (fst p) (snd p)) = Ok response ->
    open_error env (log_http (zipit_request paths (fst p) (snd p)) w) name
    = None ->
    write_error env (log_http (zipit_request paths (fst p) (snd p)) w) name
      (content response) = None ->
    disk_get name
      (disk (snd (download_file env self (VList files) (VStr name) w)))
    = Some (content response).
Proof.
  intros env self files name w pairs p paths response
    Hpairs Hs Hpaths Hpost Hopen Hwrite.
  rewrite (download_file_output_name_supplied env self files name w pairs p
             paths response Hpairs Hs Hpaths Hpost Hopen Hwrite).
  apply disk_get_put.
Qed.

(** A lone dict is a batch of one. *)
Lemma download_file_wraps_dict :
  forall env self d output_name w,
    download_file env self (VDict d) output_name w
    = download_file env self (VList [VDict d]) output_name w.
Proof. reflexivity. Qed.

(** ** Path derivation *)

(** C2, as the code has it: a [uri] of fewer than five segments is not
    refused; both [list_filenames] and [download_file] derive the empty
    path from it. *)
Theorem short_uri_yields_empty_path :
  forall (d : list (string * value)) (uri : string),
    lookup "uri" d = Some (VStr uri) ->
    (List.length (split "/"%char uri) < 5)%nat ->
    filename_of (VDict d) = Ok (VStr "")
    /\ path_of (VDict d) = Ok (VStr "").
Proof.
  intros d uri Huri Hlen.
  unfold filename_of, path_of; simpl. rewrite Huri; simpl.
  rewrite relative_path_short by lia. now split.
Qed.

Lemma short_uri_yields_empty_path_witness :
  filename_of (VDict [("uri", VStr "s3://bucket")]) = Ok (VStr "")
  /\ path_of (VDict [("uri", VStr "s3://bucket")]) = Ok (VStr "").
Proof.
  apply (short_uri_yields_empty_path [("uri", VStr "s3://bucket")] "s3://bucket").
  - reflexivity.
  - simpl; lia.
Defined.

(** C2 as stated fails: the uri ["s3://bucket"] has three segments, and
    neither operation raises; the file name listed and the path requested
    are the empty string. *)
Lemma short_uri_not_rejected :
  (List.length (split "/"%char "s3://bucket") < 5)%nat
  /\ is_raise (filename_of (file_entry 11 2 "s3://bucket" "a.csv")) = false
  /\ is_raise (path_of (file_entry 11 2 "s3://bucket" "a.csv")) = false
  /\ fst (list_filenames
            (double (files_body [file_entry 11 2 "s3://bucket" "a.csv"]) archive)
            (service VNone) None None None None None None None empty_world)
     = Ok (VList [VStr ""])
  /\ download_file (double VNone archive) (service VNone)
       (file_entry 11 2 "s3://bucket" "a.csv") VNone empty_world
     = (Ok archive,
        write_disk "a.csv" "PK"
          (log_http (zipit_request [VStr ""] (VInt 11) (VInt 2)) empty_world)).
Proof.
  repeat split. simpl; lia.
Qed.

(** ** Search operations *)

(** What a run of [list_files] is: one GET on the agent, then the
    subscript. *)
Lemma list_files_run :
  forall env self limit offset file_type query organization organization_id
         dataset_id w,
    list_files env self limit offset file_type query organization
      organization_id dataset_id w
    = (body <~ agent_get env w (Pennsieve self) files_url default_headers
                 (list_files_params limit offset file_type query organization
                    organization_id dataset_id) ;;
       getitem body "files",
       log_agent
         (AgentGet files_url default_headers
            (list_files_params limit offset file_type query organization
               organization_id dataset_id)) w).
Proof.
  intros. unfold list_files, bind, call_get, lift.
  now destruct (agent_get env w _ _ _ _).
Qed.

(** [list_filenames] passes its bound arguments on by keyword. *)
Lemma list_filenames_run :
  forall env self limit offset file_type query organization organization_id
         dataset_id w,
    list_filenames env self limit offset file_type query organization
      organization_id dataset_id w
    = (response <~ fst (list_files env self limit offset file_type query
                          organization organization_id dataset_id w) ;;
       items <~ iter response ;;
       names <~ rmap filename_of items ;;
       Ok (VList names),
       snd (list_files env self limit offset file_type query organization
              organization_id dataset_id w)).
Proof.
  intros. unfold list_filenames, bind, lift, ret.
  rewrite !list_files_run. cbn [kw fst snd].
  destruct (agent_get env w _ _ _ _) as [body | e]; cbn [rbind]; [| reflexivity].
  destruct (getitem body "files") as [response | e]; cbn [rbind]; [| reflexivity].
  destruct (iter response) as [items | e]; cbn [rbind]; [| reflexivity].
  now destruct (rmap filename_of items).
Qed.

(** C4, as the code has it: splitting
    ["proto://host/bucket/dataset/version/sub/path/file.csv"] on [/] gives
    ["proto:"], [""], ["host"], ["bucket"], ["dataset"] as the first five
    segments, so the name listed is ["version/sub/path/file.csv"]. *)
Theorem list_filenames_spec_uri :
  forall env self limit offset file_type query organization organization_id
         dataset_id w w' d,
    list_files env self limit offset file_type query organization
      organization_id dataset_id w = (Ok (VList [VDict d]), w') ->
    lookup "uri" d
    = Some (VStr "proto://host/bucket/dataset/version/sub/path/file.csv") ->
    list_filenames env self limit offset file_type query organization
      organization_id dataset_id w
    = (Ok (VList [VStr "version/sub/path/file.csv"]), w').
Proof.
  intros until d. intros Hfiles Huri.
  rewrite list_filenames_run, Hfiles.
  cbn [fst snd rbind iter rmap]. unfold filename_of; cbn [getitem].
  now rewrite Huri.
Qed.

Lemma list_filenames_spec_uri_witness :
  list_filenames
    (double
       (files_body
          [file_entry 11 2
             "proto://host/bucket/dataset/version/sub/path/file.csv"
             "file.csv"]) archive)
    (service VNone) None None None None None None None empty_world
  = (Ok (VList [VStr "version/sub/path/file.csv"]),
     log_agent
       (AgentGet files_url default_headers
          (list_files_params None None None None None None None))
       empty_world).
Proof.
  apply (list_filenames_spec_uri _ _ _ _ _ _ _ _ _ _ _
           [("datasetId", VInt 11); ("datasetVersion", VInt 2);
            ("uri", VStr "proto://host/bucket/dataset/version/sub/path/file.csv");
            ("name", VStr "file.csv")]).
  - reflexivity.
  - reflexivity.
Defined.

(** C4 as stated fails: on that uri the result is not
    ["sub/path/file.csv"]. *)
Lemma list_filenames_spec_uri_differs :
  fst (list_filenames
         (double
            (files_body
               [file_entry 11 2
                  "proto://host/bucket/dataset/version/sub/path/file.csv"
                  "file.csv"]) archive)
         (service VNone) None None None None None None None empty_world)
  <> Ok (VList [VStr "sub/path/file.csv"]).
Proof. discriminate. Qed.

(** C10: on the list that [list_files] returns for the same arguments,
    [list_filenames] is the map of [filename_of]: it leaves the world as
    [list_files] does, has one name per file in the same order, each the
    relative path of that file's [uri], and it returns whenever every file
    has a string [uri]. *)
Theorem list_filenames_maps_list_files :
  forall env self limit offset file_type query organization organization_id
         dataset_id w w' items,
    list_files env self limit offset file_type query organization
      organization_id dataset_id w = (Ok (VList items), w') ->
    list_filenames env self limit offset file_type query organization
      organization_id dataset_id w
    = (names <~ rmap filename_of items ;; Ok (VList names), w')
    /\ (forall names,
          rmap filename_of items = Ok names ->
          List.length names = List.length items
          /\ forall i x,
               nth_error items i = Some x ->
               exists uri,
                 getitem x "uri" = Ok (VStr uri)
                 /\ nth_error names i = Some (VStr (relative_path uri)))
    /\ (Forall (fun x => exists uri, getitem x "uri" = Ok (VStr uri)) items ->
        exists names, rmap filename_of items = Ok names).
Proof.
  intros until items. intros Hfiles. repeat split.
  - rewrite list_filenames_run, Hfiles. reflexivity.
  - now apply rmap_length with (f := filename_of).
  - intros i x Hx.
    destruct (rmap_nth _ _ _ H i x Hx) as [name [Hname Hnth]].
    unfold filename_of in Hname.
    destruct (getitem x "uri") as [[| | | uri | |] | e]; try discriminate.
    exists uri. split; [reflexivity |].
    simpl in Hname. inversion Hname; subst. assumption.
  - intros Hall. apply rmap_total.
    eapply Forall_impl; [| exact Hall].
    intros x [uri Huri]. unfold filename_of. rewrite Huri. simpl. eauto.
Qed.

Lemma list_filenames_maps_list_files_witness :
  list_filenames
    (double
       (files_body
          [file_entry 11 2 "s3://bucket/11/2/files/a/b.csv" "b.csv";
           file_entry 11 2 "s3://bucket/11/2/files/c.csv" "c.csv"]) archive)
    (service VNone) None None None None None None None empty_world
  = (Ok (VList [VStr "files/a/b.csv"; VStr "files/c.csv"]),
     log_agent
       (AgentGet files_url default_headers
          (list_files_params None None None None None None None))
       empty_world).
Proof.
  exact (proj1
           (list_filenames_maps_list_files
              (double
                 (files_body
                    [file_entry 11 2 "s3://bucket/11/2/files/a/b.csv" "b.csv";
                     file_entry 11 2 "s3://bucket/11/2/files/c.csv" "c.csv"])
                 archive)
              (service VNone) None None None None None None None empty_world
              (log_agent
                 (AgentGet files_url default_headers
                    (list_files_params None None None None None None None))
                 empty_world)
              [file_entry 11 2 "s3://bucket/11/2/files/a/b.csv" "b.csv";
               file_entry 11 2 "s3://bucket/11/2/files/c.csv" "c.csv"]
              eq_refl)).
Defined.

(** C6: when [list_files] returns, the agent's answer was a mapping and the
    value returned is its [files] member, which is not that mapping; if
    the member is an array, so is the value returned. *)
Theorem list_files_returns_files_member :
  forall env self limit offset file_type query organization organization_id
         dataset_id w w' v,
    list_files env self limit offset file_type query organization
      organization_id dataset_id w = (Ok v, w') ->
    exists entries,
      agent_get env w (Pennsieve self) files_url default_headers
        (list_files_params limit offset file_type query organization
           organization_id dataset_id) = Ok (VDict entries)
      /\ lookup "files" entries = Some v
      /\ v <> VDict entries
      /\ (forall items, lookup "files" entries = Some (VList items) ->
                        v = VList items).
Proof.
  intros until v. rewrite list_files_run. intros H.
  inversion H as [[Hv Hw]]; clear H Hw.
  destruct (agent_get env w _ _ _ _) as [body | e]; [| discriminate].
  destruct body as [| | | | | entries]; try discriminate.
  cbn [rbind getitem] in Hv.
  destruct (lookup "files" entries) as [v0 |] eqn:Hfiles; [| discriminate].
  inversion Hv; subst v0.
  exists entries. split; [reflexivity |]. split; [exact Hfiles |]. split.
  - now apply (lookup_not_self "files").
  - intros items Hitems. congruence.
Qed.

Lemma list_files_returns_files_member_witness :
  exists entries,
    Ok (files_body [file_entry 11 2 "s3://bucket/11/2/files/a.csv" "a.csv"])
    = Ok (VDict entries)
    /\ lookup "files" entries
       = Some (VList [file_entry 11 2 "s3://bucket/11/2/files/a.csv" "a.csv"])
    /\ VList [file_entry 11 2 "s3://bucket/11/2/files/a.csv" "a.csv"]
       <> VDict entries
    /\ (forall items,
          lookup "files" entries = Some (VList items) ->
          VList [file_entry 11 2 "s3://bucket/11/2/files/a.csv" "a.csv"]
          = VList items).
Proof.
  exact (list_files_returns_files_member
           (double
              (files_body
                 [file_entry 11 2 "s3://bucket/11/2/files/a.csv" "a.csv"])
              archive)
           (service VNone) None None None None None None None empty_world
           (log_agent
              (AgentGet files_url default_headers
                 (list_files_params None None None None None None None))
              empty_world)
           (VList [file_entry 11 2 "s3://bucket/11/2/files/a.csv" "a.csv"])
           eq_refl).
Defined.

(** The other direction: a mapping with a [files] member makes
    [list_files] return that member. *)
Lemma list_files_succeeds :
  forall env self limit offset file_type query organization organization_id
         dataset_id w entries v,
    agent_get env w (Pennsieve self) files_url default_headers
      (list_files_params limit offset file_type query organization
         organization_id dataset_id) = Ok (VDict entries) ->
    lookup "files" entries = Some v ->
    fst (list_files env self limit offset file_type query organization
           organization_id dataset_id w) = Ok v.
Proof.
  intros until v. intros Hget Hfiles.
  rewrite list_files_run, Hget. cbn [fst rbind getitem]. now rewrite Hfiles.
Qed.

(** The text ["None"] stands under a key only when the caller gave it. *)
Lemma none_text_kw (given : option value) (default : value) :
  match default with VStr s => String.eqb s "None" | _ => false end = false ->
  match kw given default with VStr s => String.eqb s "None" | _ => false end
  = given_none_text given.
Proof. destruct given as [v |]; simpl; auto. Qed.

(** C7: each search hands the agent its [params] mapping.  The keys are
    the wire names, and under each stands the argument of that name as
    given, or its default ([10], [0], [None]) when left out: so a filter
    left out is [None] there whatever else is given, and the text ["None"]
    is sent only when the caller passes it.  A call with nothing given
    builds the mapping of a call with [limit=10, offset=0] given. *)
Theorem search_params_on_the_wire :
  forall env self w,
    (forall limit offset query organization organization_id tags embargo
            order_by order_direction,
        snd (list_datasets env self limit offset query organization
               organization_id tags embargo order_by order_direction w)
        = log_agent
            (AgentGet datasets_url default_headers
               (list_datasets_params limit offset query organization
                  organization_id tags embargo order_by order_direction)) w
        /\ keys (list_datasets_params limit offset query organization
                   organization_id tags embargo order_by order_direction)
           = ["limit"; "offset"; "query"; "organization"; "organizationId";
              "tags"; "embargo"; "orderBy"; "orderDirection"]
        /\ map (fun k =>
                  lookup k (list_datasets_params limit offset query
                              organization organization_id tags embargo
                              order_by order_direction))
             ["limit"; "offset"; "query"; "organization"; "organizationId";
              "tags"; "embargo"; "orderBy"; "orderDirection"]
           = [Some (kw limit (VInt 10)); Some (kw offset (VInt 0));
              Some (kw query VNone); Some (kw organization VNone);
              Some (kw organization_id VNone); Some (kw tags VNone);
              Some (kw embargo VNone); Some (kw order_by VNone);
              Some (kw order_direction VNone)]
        /\ sends_none_text
             (list_datasets_params limit offset query organization
                organization_id tags embargo order_by order_direction)
           = existsb given_none_text
               [limit; offset; query; organization; organization_id; tags;
                embargo; order_by; order_direction])
    /\ (forall limit offset file_type query organization organization_id
               dataset_id,
          snd (list_files env self limit offset file_type query organization
                 organization_id dataset_id w)
          = log_agent
              (AgentGet files_url default_headers
                 (list_files_params limit offset file_type query organization
                    organization_id dataset_id)) w
          /\ keys (list_files_params limit offset file_type query organization
                     organization_id dataset_id)
             = ["limit"; "offset"; "fileType"; "query"; "organization";
                "organizationId"; "datasetId"]
          /\ map (fun k =>
                    lookup k (list_files_params limit offset file_type query
                                organization organization_id dataset_id))
               ["limit"; "offset"; "fileType"; "query"; "organization";
                "organizationId"; "datasetId"]
             = [Some (kw limit (VInt 10)); Some (kw offset (VInt 0));
                Some (kw file_type VNone); Some (kw query VNone);
                Some (kw organization VNone);
                Some (kw organization_id VNone); Some (kw dataset_id VNone)]
          /\ sends_none_text
               (list_files_params limit offset file_type query organization
                  organization_id dataset_id)
             = existsb given_none_text
                 [limit; offset; file_type; query; organization;
                  organization_id; dataset_id])
    /\ (forall limit offset model organization dataset_id,
          snd (list_records env self limit offset model organization
                 dataset_id w)
          = log_agent
              (AgentGet records_url default_headers
                 (list_records_params limit offset model organization
                    dataset_id)) w
          /\ keys (list_records_params limit offset model organization
                     dataset_id)
             = ["limit"; "offset"; "model"; "organization"; "datasetId"]
          /\ map (fun k =>
                    lookup k (list_records_params limit offset model
                                organization dataset_id))
               ["limit"; "offset"; "model"; "organization"; "datasetId"]
             = [Some (kw limit (VInt 10)); Some (kw offset (VInt 0));
                Some (kw model VNone); Some (kw organization VNone);
                Some (kw dataset_id VNone)]
          /\ sends_none_text
               (list_records_params limit offset model organization
                  dataset_id)
             = existsb given_none_text
                 [limit; offset; model; organization; dataset_id])
    /\ (forall limit offset,
          present (skipn 2 (list_datasets_params limit offset None None None
                              None None None None)) = []
          /\ present (skipn 2 (list_files_params limit offset None None None
                                 None None)) = []
          /\ present (skipn 2 (list_records_params limit offset None None
                                 None)) = [])
    /\ (sends_none_text (list_datasets_params None None None None None None
                           None None None) = false
        /\ sends_none_text (list_files_params None None None None None None
                              None) = false
        /\ sends_none_text (list_records_params None None None None None)
           = false)
    /\ (list_datasets_params None None None None None None None None None
        = list_datasets_params (Some (VInt 10)) (Some (VInt 0)) None None None
            None None None None
        /\ list_files_params None None None None None None None
           = list_files_params (Some (VInt 10)) (Some (VInt 0)) None None None
               None None
        /\ list_records_params None None None None None
           = list_records_params (Some (VInt 10)) (Some (VInt 0)) None None
               None).
Proof.
  intros env self w.
  split; [| split; [| split; [| repeat split]]].
  - intros. split; [reflexivity |]. split; [reflexivity |].
    split; [reflexivity |].
    unfold sends_none_text, list_datasets_params. cbn [existsb snd].
    now rewrite !none_text_kw by reflexivity.
  - intros. split; [now rewrite list_files_run |]. split; [reflexivity |].
    split; [reflexivity |].
    unfold sends_none_text, list_files_params. cbn [existsb snd].
    now rewrite !none_text_kw by reflexivity.
  - intros. split; [reflexivity |]. split; [reflexivity |].
    split; [reflexivity |].
    unfold sends_none_text, list_records_params. cbn [existsb snd].
    now rewrite !none_text_kw by reflexivity.
Qed.

(** ** Profile *)

(** C8: [connect] makes one call of the agent's [connect], whatever the
    agent answers: with the profile name when there is one, with no
    argument when it is [None].  When that call returns, [connect] returns
    the agent handle; when it raises, [connect] raises the same. *)
Theorem connect_passes_profile :
  forall env self w,
    (profile_name self <> VNone ->
     snd (connect env self w)
     = log_agent (AgentConnect (Some (profile_name self))) w
     /\ (agent_connect env w (Pennsieve self) (Some (profile_name self))
         = Ok tt ->
         fst (connect env self w) = Ok (Pennsieve self))
     /\ (forall e,
           agent_connect env w (Pennsieve self) (Some (profile_name self))
           = Raise e ->
           fst (connect env self w) = Raise e))
    /\ (profile_name self = VNone ->
        snd (connect env self w) = log_agent (AgentConnect None) w
        /\ (agent_connect env w (Pennsieve self) None = Ok tt ->
            fst (connect env self w) = Ok (Pennsieve self))
        /\ (forall e,
              agent_connect env w (Pennsieve self) None = Raise e ->
              fst (connect env self w) = Raise e)).
Proof.
  intros env self w. unfold connect, bind, call_connect, ret.
  split; intros Hname.
  - assert (Hsome : negb (is_none (profile_name self)) = true)
      by (destruct (profile_name self); try reflexivity; congruence).
    rewrite Hsome. split; [| split].
    + now destruct (agent_connect env w _ _).
    + now intros ->.
    + now intros e ->.
  - rewrite Hname. cbn [is_none negb]. split; [| split].
    + now destruct (agent_connect env w _ _).
    + now intros ->.
    + now intros e ->.
Qed.

Lemma connect_passes_profile_witness :
  connect (picky "user") (service (VStr "user")) empty_world
  = (Ok 0%nat, log_agent (AgentConnect (Some (VStr "user"))) empty_world)
  /\ connect (picky "user") (service (VStr "guest")) empty_world
     = (Raise (Foreign "ProfileNotFound"),
        log_agent (AgentConnect (Some (VStr "guest"))) empty_world)
  /\ connect (picky "user") (service VNone) empty_world
     = (Ok 0%nat, log_agent (AgentConnect None) empty_world).
Proof.
  pose proof (proj1 (connect_passes_profile (picky "user")
                       (service (VStr "user")) empty_world))
    as Huser.
  pose proof (proj1 (connect_passes_profile (picky "user")
                       (service (VStr "guest")) empty_world))
    as Hguest.
  pose proof (proj2 (connect_passes_profile (picky "user")
                       (service VNone) empty_world))
    as Hnone.
  split; [| split].
  - destruct Huser as [Hlog [Hok _]]; [discriminate |].
    apply injective_projections; [apply Hok; reflexivity | exact Hlog].
  - destruct Hguest as [Hlog [_ Hraise]]; [discriminate |].
    apply injective_projections; [apply Hraise; reflexivity | exact Hlog].
  - destruct Hnone as [Hlog [Hok _]]; [reflexivity |].
    apply injective_projections; [apply Hok; reflexivity | exact Hlog].
Defined.

(** C5, where the code departs from it: with a configuration that has no
    [pennsieve_profile_name], [config.get] gives [None] and the argument of
    the [logging.info] call, ["Profile: " + None], raises [TypeError]: no
    instance is made. *)
Theorem init_without_profile_name_raises :
  forall env entries connect_flag w h,
    agent_new env w = Ok h ->
    lookup "pennsieve_profile_name" entries = None ->
    init env (VDict entries) connect_flag w
    = (Raise TypeError, log_agent AgentNew w).
Proof.
  intros env entries connect_flag w h Hnew Hname.
  unfold init, bind, new_agent, lift. rewrite Hnew.
  cbn [is_none negb get]. now rewrite Hname.
Qed.

Lemma init_without_profile_name_raises_witness :
  init (double VNone archive) (VDict []) false empty_world
  = (Raise TypeError, log_agent AgentNew empty_world).
Proof.
  apply (init_without_profile_name_raises (double VNone archive) []
           false empty_world 0%nat).
  - reflexivity.
  - reflexivity.
Defined.

(** The sibling paths: no configuration at all leaves the profile [None],
    and a configuration with a string profile name keeps it. *)
Lemma init_without_config :
  forall env w h,
    agent_new env w = Ok h ->
    init env VNone false w
    = (Ok {| profile_name := VNone; Pennsieve := h |}, log_agent AgentNew w).
Proof.
  intros env w h Hnew. unfold init, bind, new_agent, ret. now rewrite Hnew.
Qed.

Lemma init_with_profile_name :
  forall env entries name w h,
    agent_new env w = Ok h ->
    lookup "pennsieve_profile_name" entries = Some (VStr name) ->
    init env (VDict entries) false w
    = (Ok {| profile_name := VStr name; Pennsieve := h |},
       log_agent AgentNew w).
Proof.
  intros env entries name w h Hnew Hname.
  unfold init, bind, new_agent, lift, ret. rewrite Hnew.
  cbn [is_none negb get]. now rewrite Hname.
Qed.

(** ** More on the Python layer *)

Lemma append_assoc (a b c : string) :
  String.append (String.append a b) c = String.append a (String.append b c).
Proof. induction a as [| x a IH]; simpl; [reflexivity | now rewrite IH]. Qed.

(** A string that is one segment: it holds no separator. *)
Lemma split_single_tail (sep c : ascii) (s : string) :
  split sep (String c s) = [String c s] -> split sep s = [s].
Proof.
  simpl. destruct (Ascii.eqb c sep); [discriminate |].
  destruct (split sep s) as [| seg segs] eqn:Hs; intros H.
  - now destruct (split_nonempty sep s).
  - inversion H; reflexivity.
Qed.

Lemma split_single_head (sep c : ascii) (s : string) :
  split sep (String c s) = [String c s] -> Ascii.eqb c sep = false.
Proof. simpl. destruct (Ascii.eqb c sep); [discriminate | reflexivity]. Qed.

(** Splitting after a first segment. *)
Lemma split_app_sep (sep : ascii) (x t : string) :
  split sep x = [x] ->
  split sep (String.append x (String sep t)) = x :: split sep t.
Proof.
  induction x as [| c x IH]; intros Hx.
  - simpl. now rewrite Ascii.eqb_refl.
  - pose proof (split_single_head _ _ _ Hx) as Hc.
    pose proof (split_single_tail _ _ _ Hx) as Hx'.
    simpl. rewrite Hc, (IH Hx'). reflexivity.
Qed.

(** Every segment that [split] returns is one segment. *)
Lemma split_segments (sep : ascii) (s seg : string) :
  In seg (split sep s) -> split sep seg = [seg].
Proof.
  revert seg; induction s as [| c s IH]; intros seg Hin.
  - destruct Hin as [<- | []]. reflexivity.
  - simpl in Hin. destruct (Ascii.eqb c sep) eqn:Hc.
    + destruct Hin as [<- | Hin]; [reflexivity | now apply IH].
    + destruct (split sep s) as [| seg0 segs] eqn:Hs.
      * destruct Hin as [<- | []]. simpl. now rewrite Hc.
      * destruct Hin as [<- | Hin].
        -- simpl. rewrite Hc. now rewrite (IH seg0 (or_introl eq_refl)).
        -- apply IH. now right.
Qed.

Lemma concat_cons (sep x : string) (l : list string) :
  l <> [] ->
  String.concat sep (x :: l)
  = String.append x (String.append sep (String.concat sep l)).
Proof. destruct l; [congruence | reflexivity]. Qed.

Lemma concat_app (sep : string) (a b : list string) :
  a <> [] -> b <> [] ->
  String.concat sep (a ++ b)
  = String.append (String.concat sep a)
      (String.append sep (String.concat sep b)).
Proof.
  induction a as [| x a IH]; intros Ha Hb; [congruence |].
  destruct a as [| y a].
  - simpl app. now rewrite concat_cons.
  - change ((x :: y :: a) ++ b) with (x :: ((y :: a) ++ b)).
    rewrite concat_cons by (simpl; discriminate).
    rewrite IH by (discriminate || assumption).
    rewrite (concat_cons sep x (y :: a)) by discriminate.
    now rewrite !append_assoc.
Qed.

(** Splitting a joined list of segments gives the segments back. *)
Lemma split_concat (sep : ascii) (segs : list string) :
  segs <> [] ->
  (forall seg, In seg segs -> split sep seg = [seg]) ->
  split sep (String.concat (String sep EmptyString) segs) = segs.
Proof.
  induction segs as [| x segs IH]; intros Hne Hall; [congruence |].
  destruct segs as [| y segs].
  - simpl. apply Hall. now left.
  - rewrite concat_cons by discriminate.
    change (String.append (String sep "") ?t) with (String sep t).
    rewrite split_app_sep by (apply Hall; now left).
    f_equal. apply IH; [discriminate |].
    intros seg Hin. apply Hall. now right.
Qed.

(** Joining what [split] returns with the separator gives the string
    back: ["/".join(s.split("/")) == s]. *)
Lemma join_split :
  forall s : string, join_slash (split "/"%char s) = s.
Proof.
  unfold join_slash.
  induction s as [| c s IH]; [reflexivity |].
  simpl split. destruct (Ascii.eqb c "/"%char) eqn:Hc.
  - apply Ascii.eqb_eq in Hc; subst c.
    rewrite concat_cons by apply split_nonempty. now rewrite IH.
  - destruct (split "/"%char s) as [| seg segs] eqn:Hs.
    + now destruct (split_nonempty "/"%char s).
    + rewrite <- IH.
      destruct segs as [| seg' segs]; reflexivity.
Qed.

(** X1: a uri of more than five segments is its five-segment prefix, a
    slash, and the relative path: the cut drops exactly the first five
    segments and keeps the rest of the text as it is. *)
Theorem relative_path_suffix :
  forall uri : string,
    (5 < List.length (split "/"%char uri))%nat ->
    exists prefix,
      uri = String.append prefix (String "/"%char (relative_path uri))
      /\ split "/"%char prefix = firstn 5 (split "/"%char uri)
      /\ List.length (split "/"%char prefix) = 5%nat.
Proof.
  intros uri Hlen.
  exists (join_slash (firstn 5 (split "/"%char uri))).
  assert (Hfirst : firstn 5 (split "/"%char uri) <> []).
  { intros H. apply (f_equal (@List.length string)) in H.
    rewrite length_firstn in H.
    change (List.length (@nil string)) with 0%nat in H. lia. }
  assert (Hrest : skipn 5 (split "/"%char uri) <> []).
  { intros H. apply (f_equal (@List.length string)) in H.
    rewrite length_skipn in H.
    change (List.length (@nil string)) with 0%nat in H. lia. }
  repeat split.
  - rewrite <- (join_split uri) at 1.
    rewrite <- (firstn_skipn 5 (split "/"%char uri)) at 1.
    unfold join_slash, relative_path, join_slash.
    now rewrite concat_app.
  - unfold join_slash. apply split_concat; [assumption |].
    intros seg Hin. apply (split_segments "/"%char uri).
    rewrite <- (firstn_skipn 5 (split "/"%char uri)).
    apply in_or_app. now left.
  - unfold join_slash. rewrite split_concat; [| assumption |].
    + rewrite length_firstn. lia.
    + intros seg Hin. apply (split_segments "/"%char uri).
      rewrite <- (firstn_skipn 5 (split "/"%char uri)).
      apply in_or_app. now left.
Qed.

Lemma relative_path_suffix_witness :
  exists prefix,
    "s3://bucket/11/2/files/a/b.csv"
    = String.append prefix
        (String "/"%char (relative_path "s3://bucket/11/2/files/a/b.csv"))
    /\ split "/"%char prefix
       = firstn 5 (split "/"%char "s3://bucket/11/2/files/a/b.csv")
    /\ List.length (split "/"%char prefix) = 5%nat.
Proof.
  apply (relative_path_suffix "s3://bucket/11/2/files/a/b.csv").
  simpl; lia.
Defined.

(** X2: behind any five slash-free segments the relative path is the rest
    of the uri, whatever it is; for the storage layout
    [s3://bucket/id/version/...] the five are ["s3:"], [""], the bucket,
    the dataset id and the version. *)
Theorem relative_path_after_five :
  forall a b c d e rest : string,
    split "/"%char a = [a] -> split "/"%char b = [b] ->
    split "/"%char c = [c] -> split "/"%char d = [d] ->
    split "/"%char e = [e] ->
    relative_path
      (String.append a (String "/"%char
      (String.append b (String "/"%char
      (String.append c (String "/"%char
      (String.append d (String "/"%char
      (String.append e (String "/"%char rest))))))))))
    = rest.
Proof.
  intros a b c d e rest Ha Hb Hc Hd He. unfold relative_path.
  rewrite (split_app_sep _ a _ Ha), (split_app_sep _ b _ Hb),
    (split_app_sep _ c _ Hc), (split_app_sep _ d _ Hd),
    (split_app_sep _ e _ He).
  cbn [skipn]. apply join_split.
Qed.

Lemma relative_path_after_five_witness :
  relative_path
    (String.append "s3:" (String "/"%char
    (String.append "" (String "/"%char
    (String.append "bucket" (String "/"%char
    (String.append "11" (String "/"%char
    (String.append "2" (String "/"%char "files/a/b.csv"))))))))))
  = "files/a/b.csv".
Proof.
  apply (relative_path_after_five "s3:" "" "bucket" "11" "2" "files/a/b.csv");
    reflexivity.
Defined.

(** ** More on the bulk download *)

(** The first member of a set under construction stays first. *)
Lemma set_add_head (p a : value * value) (acc : list (value * value)) :
  exists t, set_add p (a :: acc) = a :: t.
Proof. simpl. destruct (pair_eqb p a); eauto. Qed.

Lemma set_of_head (ps acc s : list (value * value)) (a : value * value) :
  set_of (a :: acc) ps = Ok s -> exists t, s = a :: t.
Proof.
  revert acc; induction ps as [| p ps IH]; intros acc H; simpl in H.
  - inversion H; eauto.
  - destruct (hashable (fst p) && hashable (snd p)); [| discriminate].
    destruct (pair_eqb p a); eapply IH; exact H.
Qed.

(** A set of size one: the input is not empty, the member is its first
    pair, and every pair equals it. *)
Lemma set_of_singleton (pairs s : list (value * value)) :
  set_of [] pairs = Ok s -> Nat.eqb (List.length s) 1 = true ->
  exists p rest,
    pairs = p :: rest /\ s = [p]
    /\ forall q, In q pairs -> pair_eqb q p = true.
Proof.
  intros Hs Hlen. destruct pairs as [| p rest].
  - inversion Hs; subst. discriminate.
  - exists p, rest. split; [reflexivity |].
    assert (Hp : s = [p]).
    { simpl in Hs.
      destruct (hashable (fst p) && hashable (snd p)); [| discriminate].
      destruct (set_of_head _ _ _ _ Hs) as [t ->].
      destruct t; [reflexivity | discriminate]. }
    split; [assumption |]. subst s.
    intros q Hq. destruct (set_of_has _ _ _ _ Hs Hq) as [q' [[<- | []] Heq]].
    assumption.
Qed.

(** The other way round: pairs that all equal the first make the set of
    the first. *)
Lemma set_of_homogeneous (p : value * value) (rest : list (value * value)) :
  hashable_pair p = true ->
  (forall q, In q rest -> hashable_pair q = true /\ pair_eqb q p = true) ->
  set_of [] (p :: rest) = Ok [p].
Proof.
  intros Hp Hall. simpl. unfold hashable_pair in Hp. rewrite Hp. simpl.
  induction rest as [| q rest IH]; [reflexivity |].
  simpl. destruct (Hall q (or_introl eq_refl)) as [Hq Heq].
  unfold hashable_pair in Hq. rewrite Hq, Heq.
  apply IH. intros q' Hin. apply Hall. now right.
Qed.

(** A comprehension raises what one of its elements raises. *)
Lemma rmap_raise_in {A B} (f : A -> result B) (xs : list A) (x : A) :
  In x xs -> is_raise (f x) = true ->
  exists y e, In y xs /\ f y = Raise e /\ rmap f xs = Raise e.
Proof.
  induction xs as [| x0 xs IH]; intros Hin Hx; [destruct Hin |].
  simpl. destruct (f x0) as [y0 | e0] eqn:Hf0.
  - destruct Hin as [-> | Hin]; [rewrite Hf0 in Hx; discriminate |].
    destruct (IH Hin Hx) as [y [e [Hy [Hfy Hr]]]].
    exists y, e. rewrite Hr. simpl. auto.
  - exists x0, e0. simpl. auto.
Qed.

Lemma dataset_pair_errors (x : value) (e : exc) :
  dataset_pair x = Raise e ->
  e = TypeError \/ e = KeyError "datasetId" \/ e = KeyError "datasetVersion".
Proof.
  unfold dataset_pair. destruct x as [| | | | | d]; simpl;
    try (intros H; inversion H; now auto).
  destruct (lookup "datasetId" d); simpl.
  - destruct (lookup "datasetVersion" d); simpl;
      intros H; inversion H; auto.
  - intros H; inversion H; auto.
Qed.

(** Writing the file touches neither log. *)
Lemma open_write_frame (env : Env) (name : value) (data : string) (w : World) :
  http_log (snd (open_write env name data w)) = http_log w
  /\ agent_log (snd (open_write env name data w)) = agent_log w.
Proof.
  destruct name as [| b | fd | path | l | d]; cbn [open_write];
    try (now split).
  - unfold write_fd. destruct (_ <? 0)%Z; now split.
  - unfold write_fd. destruct (fd <? 0)%Z; now split.
  - unfold write_path. destruct (open_error env w path); [now split |].
    destruct (write_error env w path data) as [[e stored] |]; now split.
Qed.


(** [download_file] by stages. *)
Lemma download_file_run :
  forall env self file_list output_name w,
    download_file env self file_list output_name w
    = match download_request file_list with
      | Raise e => (Raise e, w)
      | Ok (req, paths) =>
          match requests_post env w req with
          | Raise e => (Raise e, log_http req w)
          | Ok response =>
              match resolve_output_name file_list output_name paths with
              | Raise e => (Raise e, log_http req w)
              | Ok name =>
                  match open_write env name (content response)
                          (log_http req w) with
                  | (Ok _, w') => (Ok response, w')
                  | (Raise e, w') => (Raise e, w')
                  end
              end
          end
      end.
Proof.
  intros env self file_list output_name w.
  unfold download_file, download_request, resolve_output_name, batch_of.
  unfold bind at 1, lift at 1.
  destruct (iter (if is_dict file_list then VList [file_list] else file_list))
    as [xs | e]; cbn [rbind]; [| reflexivity].
  unfold bind at 1, lift at 1.
  destruct (rmap dataset_pair xs) as [pairs | e]; cbn [rbind]; [| reflexivity].
  unfold bind at 1, lift at 1.
  destruct (set_of [] pairs) as [s | e]; cbn [rbind]; [| reflexivity].
  unfold bind at 1, lift at 1.
  destruct (rmap path_of xs) as [paths | e]; cbn [rbind]; [| reflexivity].
  destruct (negb (Nat.eqb (List.length s) 1)); [reflexivity |].
  unfold bind at 1, lift at 1.
  destruct (next_iter s) as [id_version | e]; cbn [rbind]; [| reflexivity].
  unfold bind at 1, call_post at 1.
  destruct (requests_post env w _) as [response | e]; [| reflexivity].
  unfold bind at 1.
  destruct (is_none output_name); unfold lift, ret.
  - destruct (default_output_name _ paths) as [name | e]; reflexivity.
  - reflexivity.
Qed.

Lemma rmap_in_ok {A B} (f : A -> result B) (xs : list A) (ys : list B) :
  rmap f xs = Ok ys ->
  forall x, In x xs -> exists y, f x = Ok y /\ In y ys.
Proof.
  intros H x Hin. destruct (In_nth_error _ _ Hin) as [i Hi].
  destruct (rmap_nth f xs ys H i x Hi) as [y [Hy Hnth]].
  exists y. split; [assumption |]. now apply nth_error_In with i.
Qed.

Lemma rmap_in_inv {A B} (f : A -> result B) (xs : list A) (ys : list B) :
  rmap f xs = Ok ys ->
  forall y, In y ys -> exists x, In x xs /\ f x = Ok y.
Proof.
  revert ys; induction xs as [| x0 xs IH]; intros ys H y Hin; simpl in H.
  - inversion H; subst. destruct Hin.
  - destruct (f x0) as [y0 | e] eqn:Hf0; simpl in H; [| discriminate].
    destruct (rmap f xs) as [ys' | e]; simpl in H; [| discriminate].
    inversion H; subst; clear H. destruct Hin as [<- | Hin].
    + exists x0. split; [now left | assumption].
    + destruct (IH ys' eq_refl y Hin) as [x [Hx Hfx]].
      exists x. split; [now right | assumption].
Qed.

Lemma rmap_impl {A B} (f g : A -> result B) (xs : list A) (ys : list B) :
  (forall x y, In x xs -> f x = Ok y -> g x = Ok y) ->
  rmap f xs = Ok ys -> rmap g xs = Ok ys.
Proof.
  revert ys; induction xs as [| x0 xs IH]; intros ys Hfg H; simpl in *.
  - assumption.
  - destruct (f x0) as [y0 | e] eqn:Hf0; simpl in H; [| discriminate].
    destruct (rmap f xs) as [ys' | e]; simpl in H; [| discriminate].
    inversion H; subst; clear H.
    rewrite (Hfg x0 y0 (or_introl eq_refl) Hf0). simpl.
    rewrite (IH ys'); [reflexivity | | reflexivity].
    intros x y Hin. apply Hfg. now right.
Qed.

(** When the stages before the request succeed, the batch is not empty,
    the payload carries the pair of its first entry, and every entry has a
    pair equal to it. *)
Lemma download_request_shape :
  forall file_list req paths,
    download_request file_list = Ok (req, paths) ->
    exists x rest id version,
      iter (batch_of file_list) = Ok (x :: rest)
      /\ dataset_pair x = Ok (id, version)
      /\ rmap path_of (x :: rest) = Ok paths
      /\ req = zipit_request paths id version
      /\ forall y, In y (x :: rest) ->
           exists q, dataset_pair y = Ok q /\ pair_eqb q (id, version) = true.
Proof.
  intros file_list req paths. unfold download_request.
  destruct (iter (batch_of file_list)) as [xs | e]; cbn [rbind]; [| discriminate].
  destruct (rmap dataset_pair xs) as [pairs | e] eqn:Hpairs; cbn [rbind];
    [| discriminate].
  destruct (set_of [] pairs) as [s | e] eqn:Hs; cbn [rbind]; [| discriminate].
  destruct (rmap path_of xs) as [paths' | e] eqn:Hpaths; cbn [rbind];
    [| discriminate].
  destruct (Nat.eqb (List.length s) 1) eqn:Hlen; cbn [negb]; [| discriminate].
  destruct (set_of_singleton pairs s Hs Hlen) as [p [ps [-> [-> Hall]]]].
  cbn [next_iter rbind fst snd]. intros H; inversion H; subst; clear H.
  destruct xs as [| x rest]; [discriminate |].
  exists x, rest, (fst p), (snd p).
  assert (Hx : dataset_pair x = Ok p).
  { simpl in Hpairs. destruct (dataset_pair x) as [p0 | e]; [| discriminate].
    simpl in Hpairs. destruct (rmap dataset_pair rest); [| discriminate].
    simpl in Hpairs. congruence. }
  destruct p as [id version]. repeat split; try assumption.
  intros y Hy. destruct (rmap_in_ok _ _ _ Hpairs y Hy) as [q [Hq Hin]].
  exists q. split; [assumption | now apply Hall].
Qed.

(** The logs after [download_file]: nothing when the early stages raise,
    one request otherwise; the agent is never called. *)
Lemma download_file_logs :
  forall env self file_list output_name w,
    match download_request file_list with
    | Raise e => download_file env self file_list output_name w = (Raise e, w)
    | Ok (req, _) =>
        http_log (snd (download_file env self file_list output_name w))
        = http_log w ++ [req]
        /\ agent_log (snd (download_file env self file_list output_name w))
           = agent_log w
    end.
Proof.
  intros env self file_list output_name w. rewrite download_file_run.
  destruct (download_request file_list) as [[req paths] | e]; [| reflexivity].
  destruct (requests_post env w req) as [response | e]; [| now split].
  destruct (resolve_output_name file_list output_name paths) as [name | e];
    [| now split].
  destruct (open_write_frame env name (content response) (log_http req w))
    as [Hhttp Hagent].
  destruct (open_write env name (content response) (log_http req w))
    as [[u | e] w1]; cbn [snd] in *; now split.
Qed.



(** What [path_of] gives for a dict. *)
Lemma path_of_dict (d : list (string * value)) (p : value) :
  path_of (VDict d) = Ok p ->
  p = match lookup "uri" d with
      | Some (VStr uri) => VStr (relative_path uri)
      | _ => VDict d
      end.
Proof.
  unfold path_of; cbn [get rbind].
  destruct (lookup "uri" d) as [[| b | z | uri | l | d'] |]; cbn;
    intros H; inversion H; reflexivity.
Qed.

Lemma dataset_pair_dict (x : value) (p : value * value) :
  dataset_pair x = Ok p -> exists d, x = VDict d.
Proof.
  destruct x as [| | | | | d]; try discriminate. eauto.
Qed.





(** X6: a request is sent only for a batch that is not empty and whose
    entries all have a pair equal to the first entry's; the payload
    carries that first pair and one path per entry. *)
Theorem download_file_request_needs_one_dataset :
  forall env self files output_name w,
    http_log (snd (download_file env self (VList files) output_name w))
    <> http_log w ->
    exists x rest id version paths,
      files = x :: rest
      /\ dataset_pair x = Ok (id, version)
      /\ rmap path_of files = Ok paths
      /\ http_log (snd (download_file env self (VList files) output_name w))
         = http_log w ++ [zipit_request paths id version]
      /\ Forall (fun y => exists q, dataset_pair y = Ok q
                                  /\ pair_eqb q (id, version) = true) files.
Proof.
  intros env self files output_name w Hsent.
  pose proof (download_file_logs env self (VList files) output_name w) as Hlogs.
  pose proof (download_request_shape (VList files)) as Hshape.
  destruct (download_request (VList files)) as [[req paths] | e].
  - destruct (Hshape req paths eq_refl)
      as [x [rest [id [version [Hiter [Hx [Hpaths [-> Hall]]]]]]]].
    cbn in Hiter. inversion Hiter; subst files.
    exists x, rest, id, version, paths.
    repeat split; try assumption; [apply Hlogs |].
    now apply Forall_forall.
  - rewrite Hlogs in Hsent. now destruct Hsent.
Qed.

Lemma download_file_request_needs_one_dataset_witness :
  exists x rest id version paths,
    [file_entry 11 2 "s3://bucket/11/2/files/a.csv" "a.csv";
     file_entry 11 2 "s3://bucket/11/2/files/b.csv" "b.csv"] = x :: rest
    /\ dataset_pair x = Ok (id, version)
    /\ rmap path_of
         [file_entry 11 2 "s3://bucket/11/2/files/a.csv" "a.csv";
          file_entry 11 2 "s3://bucket/11/2/files/b.csv" "b.csv"] = Ok paths
    /\ http_log
         (snd (download_file (double VNone archive) (service VNone)
                 (VList
                    [file_entry 11 2 "s3://bucket/11/2/files/a.csv" "a.csv";
                     file_entry 11 2 "s3://bucket/11/2/files/b.csv" "b.csv"])
                 (VStr "out.zip") empty_world))
       = http_log empty_world ++ [zipit_request paths id version]
    /\ Forall (fun y => exists q, dataset_pair y = Ok q
                                /\ pair_eqb q (id, version) = true)
         [file_entry 11 2 "s3://bucket/11/2/files/a.csv" "a.csv";
          file_entry 11 2 "s3://bucket/11/2/files/b.csv" "b.csv"].
Proof.
  apply (download_file_request_needs_one_dataset (double VNone archive)
           (service VNone)
           [file_entry 11 2 "s3://bucket/11/2/files/a.csv" "a.csv";
            file_entry 11 2 "s3://bucket/11/2/files/b.csv" "b.csv"]
           (VStr "out.zip") empty_world).
  discriminate.
Defined.

(** X7: in the request of a call that returns, [paths] has one entry per
    file, in order: the relative path of the file's [uri] when that is a
    string, and the whole descriptor when the [uri] is [None] or missing. *)
Theorem download_file_paths :
  forall env self files output_name w response w',
    download_file env self (VList files) output_name w = (Ok response, w') ->
    exists paths id version,
      http_log w' = http_log w ++ [zipit_request paths id version]
      /\ List.length paths = List.length files
      /\ forall i x,
           nth_error files i = Some x ->
           exists d,
             x = VDict d
             /\ nth_error paths i
                = Some (match lookup "uri" d with
                        | Some (VStr uri) => VStr (relative_path uri)
                        | _ => VDict d
                        end).
Proof.
  intros env self files output_name w response w' Hrun.
  pose proof (download_file_logs env self (VList files) output_name w) as Hlogs.
  pose proof (download_request_shape (VList files)) as Hshape.
  destruct (download_request (VList files)) as [[req paths] | e].
  - destruct (Hshape req paths eq_refl)
      as [x [rest [id [version [Hiter [Hx [Hpaths [-> Hall]]]]]]]].
    cbn in Hiter. inversion Hiter; subst files.
    rewrite Hrun in Hlogs. cbn [snd] in Hlogs.
    exists paths, id, version.
    split; [apply Hlogs |]. split; [now apply rmap_length with (f := path_of) |].
    intros i y Hy.
    destruct (rmap_nth _ _ _ Hpaths i y Hy) as [p [Hp Hnth]].
    destruct (Hall y (nth_error_In _ _ Hy)) as [q [Hq _]].
    destruct (dataset_pair_dict y q Hq) as [d ->].
    exists d. split; [reflexivity |].
    now rewrite Hnth, (path_of_dict d p Hp).
  - rewrite Hrun in Hlogs. discriminate.
Qed.

Lemma download_file_paths_witness :
  exists paths id version,
    http_log
      (write_disk "out.zip" "PK"
         (log_http
            (zipit_request
               [VStr "files/a.csv";
                VDict [("datasetId", VInt 11); ("datasetVersion", VInt 2)]]
               (VInt 11) (VInt 2)) empty_world))
    = http_log empty_world ++ [zipit_request paths id version]
    /\ List.length paths = 2%nat
    /\ forall i x,
         nth_error
           [file_entry 11 2 "s3://bucket/11/2/files/a.csv" "a.csv";
            VDict [("datasetId", VInt 11); ("datasetVersion", VInt 2)]] i
         = Some x ->
         exists d,
           x = VDict d
           /\ nth_error paths i
              = Some (match lookup "uri" d with
                      | Some (VStr uri) => VStr (relative_path uri)
                      | _ => VDict d
                      end).
Proof.
  exact (download_file_paths (double VNone archive) (service VNone)
           [file_entry 11 2 "s3://bucket/11/2/files/a.csv" "a.csv";
            VDict [("datasetId", VInt 11); ("datasetVersion", VInt 2)]]
           (VStr "out.zip") empty_world archive
           (write_disk "out.zip" "PK"
              (log_http
                 (zipit_request
                    [VStr "files/a.csv";
                     VDict [("datasetId", VInt 11); ("datasetVersion", VInt 2)]]
                    (VInt 11) (VInt 2)) empty_world))
           eq_refl).
Defined.

(** X8: an entry that is not a dict, or has no [datasetId] or no
    [datasetVersion], makes the whole call raise ([TypeError] or the
    [KeyError] of the missing key) before anything is sent or written,
    wherever in the batch it is. *)
Theorem download_file_bad_entry :
  forall env self files output_name w x,
    In x files ->
    is_raise (dataset_pair x) = true ->
    exists e,
      download_file env self (VList files) output_name w = (Raise e, w)
      /\ (e = TypeError \/ e = KeyError "datasetId"
          \/ e = KeyError "datasetVersion").
Proof.
  intros env self files output_name w x Hin Hx.
  destruct (rmap_raise_in dataset_pair files x Hin Hx) as [y [e [_ [Hy Hr]]]].
  exists e. split; [| now apply (dataset_pair_errors y)].
  unfold download_file, bind, lift; cbn [is_dict iter]. now rewrite Hr.
Qed.

Lemma download_file_bad_entry_witness :
  exists e,
    download_file (double VNone archive) (service VNone)
      (VList [file_entry 11 2 "s3://bucket/11/2/files/a.csv" "a.csv";
              VDict [("datasetId", VInt 11); ("uri", VStr "s3://bucket")]])
      (VStr "out.zip") empty_world
    = (Raise e, empty_world)
    /\ (e = TypeError \/ e = KeyError "datasetId"
        \/ e = KeyError "datasetVersion").
Proof.
  apply (download_file_bad_entry (double VNone archive) (service VNone)
           [file_entry 11 2 "s3://bucket/11/2/files/a.csv" "a.csv";
            VDict [("datasetId", VInt 11); ("uri", VStr "s3://bucket")]]
           (VStr "out.zip") empty_world
           (VDict [("datasetId", VInt 11); ("uri", VStr "s3://bucket")])).
  - right; left; reflexivity.
  - reflexivity.
Defined.

(** X9: a single descriptor without a [name], downloaded with no
    [output_name]: once the packaging service has answered the one request
    made, [file_list[0]['name']] raises [KeyError]; the response is dropped
    and no file is opened. *)
Theorem download_file_missing_name :
  forall env self d w response id version path,
    dataset_pair (VDict d) = Ok (id, version) ->
    hashable id = true ->
    hashable version = true ->
    path_of (VDict d) = Ok path ->
    lookup "name" d = None ->
    requests_post env w (zipit_request [path] id version) = Ok response ->
    download_file env self (VList [VDict d]) VNone w
    = (Raise (KeyError "name"),
       log_http (zipit_request [path] id version) w).
Proof.
  intros env self d w response id version path Hp Hid Hversion Hpath Hname Hpost.
  unfold download_file, bind, lift, call_post.
  cbn [is_dict iter rmap rbind].
  rewrite Hp, Hpath. cbn [rbind set_of fst snd]. rewrite Hid, Hversion.
  cbn [andb set_add set_of List.length Nat.eqb negb next_iter fst snd].
  rewrite Hpost.
  cbn [is_none default_output_name List.length Nat.eqb first rbind getitem].
  now rewrite Hname.
Qed.

Lemma download_file_missing_name_witness :
  download_file (echo 11 64 "pipe") (service VNone)
    (VList [VDict [("datasetId", VInt 11); ("datasetVersion", VInt 2);
                   ("uri", VStr "s3://bucket/11/2/files/a.csv")]])
    VNone empty_world
  = (Raise (KeyError "name"),
     log_http (zipit_request [VStr "files/a.csv"] (VInt 11) (VInt 2))
       empty_world).
Proof.
  apply (download_file_missing_name (echo 11 64 "pipe") (service VNone)
           [("datasetId", VInt 11); ("datasetVersion", VInt 2);
            ("uri", VStr "s3://bucket/11/2/files/a.csv")]
           empty_world
           {| status_code := 200;
              content := "https://api.pennsieve.io/zipit/discover" |}
           (VInt 11) (VInt 2) (VStr "files/a.csv")).
  - reflexivity.
  - reflexivity.
  - reflexivity.
  - reflexivity.
  - reflexivity.
  - reflexivity.
Defined.

(** X10: a batch of descriptors, of any size, that all have the pair of
    the first, downloaded under a given [output_name]: when the packaging
    service answers the one request made, [open] accepts the name and the
    write goes through, the call returns that response and the file holds
    its body. *)
Theorem download_file_named_batch :
  forall env self x rest name w p paths response,
    forallb descriptor (x :: rest) = true ->
    dataset_pair x = Ok p ->
    (forall y, In y rest ->
               exists q, dataset_pair y = Ok q /\ pair_eqb q p = true) ->
    rmap path_of (x :: rest) = Ok paths ->
    requests_post env w (zipit_request paths (fst p) (snd p)) = Ok response ->
    open_error env (log_http (zipit_request paths (fst p) (snd p)) w) name
    = None ->
    write_error env (log_http (zipit_request paths (fst p) (snd p)) w) name
      (content response) = None ->
    download_file env self (VList (x :: rest)) (VStr name) w
    = (Ok response,
       write_disk name (content response)
         (log_http (zipit_request paths (fst p) (snd p)) w))
    /\ disk_get name
         (disk (snd (download_file env self (VList (x :: rest))
                       (VStr name) w)))
       = Some (content response).
Proof.
  intros env self x rest name w p paths response
    Hd Hx Hall Hpaths Hpost Hopen Hwrite.
  destruct (descriptors_pairs _ Hd) as [pairs [Hpairs Hhash]].
  assert (Hset : set_of [] pairs = Ok [p]).
  { pose proof Hpairs as Hpairs'. simpl in Hpairs'. rewrite Hx in Hpairs'.
    simpl in Hpairs'.
    destruct (rmap dataset_pair rest) as [qs |] eqn:Hqs; [| discriminate].
    simpl in Hpairs'. inversion Hpairs'; subst pairs.
    simpl in Hhash. apply andb_true_iff in Hhash as [Hp Hqs'].
    apply set_of_homogeneous; [assumption |].
    intros q Hq. split.
    - rewrite forallb_forall in Hqs'. now apply Hqs'.
    - destruct (rmap_in_inv _ _ _ Hqs q Hq) as [y [Hy Hfy]].
      destruct (Hall y Hy) as [q' [Hq' Heq]]. congruence. }
  pose proof (download_file_output_name_supplied env self (x :: rest) name w
                pairs p paths response Hpairs Hset Hpaths Hpost Hopen Hwrite)
    as Hrun.
  split; [assumption |]. rewrite Hrun. apply disk_get_put.
Qed.

Lemma download_file_named_batch_witness :
  download_file (echo 11 64 "pipe") (service VNone)
    (VList [file_entry 11 2 "s3://bucket/11/2/files/a.csv" "a.csv";
            file_entry 11 2 "s3://bucket/11/2/files/b.csv" "b.csv"])
    (VStr "out.zip") empty_world
  = (Ok {| status_code := 200;
           content := "https://api.pennsieve.io/zipit/discover" |},
     write_disk "out.zip" "https://api.pennsieve.io/zipit/discover"
       (log_http
          (zipit_request [VStr "files/a.csv"; VStr "files/b.csv"]
             (VInt 11) (VInt 2)) empty_world))
  /\ disk_get "out.zip"
       (disk
          (snd (download_file (echo 11 64 "pipe") (service VNone)
                  (VList
                     [file_entry 11 2 "s3://bucket/11/2/files/a.csv" "a.csv";
                      file_entry 11 2 "s3://bucket/11/2/files/b.csv" "b.csv"])
                  (VStr "out.zip") empty_world)))
     = Some "https://api.pennsieve.io/zipit/discover".
Proof.
  apply (download_file_named_batch (echo 11 64 "pipe") (service VNone)
           (file_entry 11 2 "s3://bucket/11/2/files/a.csv" "a.csv")
           [file_entry 11 2 "s3://bucket/11/2/files/b.csv" "b.csv"]
           "out.zip" empty_world (VInt 11, VInt 2)
           [VStr "files/a.csv"; VStr "files/b.csv"]
           {| status_code := 200;
              content := "https://api.pennsieve.io/zipit/discover" |}).
  - reflexivity.
  - reflexivity.
  - intros y [<- | []]. exists (VInt 11, VInt 2). split; reflexivity.
  - reflexivity.
  - reflexivity.
  - reflexivity.
  - reflexivity.
Defined.

(** X11: one descriptor with a string [name], given alone (a dict, not a
    list) and with no [output_name], is a batch of one: when the packaging
    service answers the one request made, [open] accepts the name and the
    write goes through, the call returns that response and the file called
    [name] holds its body. *)
Theorem download_file_lone_descriptor :
  forall env self d name w p path response,
    dataset_pair (VDict d) = Ok p ->
    hashable_pair p = true ->
    path_of (VDict d) = Ok path ->
    lookup "name" d = Some (VStr name) ->
    requests_post env w (zipit_request [path] (fst p) (snd p)) = Ok response ->
    open_error env (log_http (zipit_request [path] (fst p) (snd p)) w) name
    = None ->
    write_error env (log_http (zipit_request [path] (fst p) (snd p)) w) name
      (content response) = None ->
    download_file env self (VDict d) VNone w
    = (Ok response,
       write_disk name (content response)
         (log_http (zipit_request [path] (fst p) (snd p)) w))
    /\ disk_get name (disk (snd (download_file env self (VDict d) VNone w)))
       = Some (content response).
Proof.
  intros env self d name w p path response Hp Hh Hpath Hname Hpost Hopen Hwrite.
  rewrite download_file_wraps_dict.
  rewrite (download_file_single_default_name env self d name w p path response
             Hp Hh Hpath Hname Hpost Hopen Hwrite).
  split; [reflexivity | apply disk_get_put].
Qed.

Lemma download_file_lone_descriptor_witness :
  download_file (echo 11 64 "pipe") (service VNone)
    (file_entry 11 2 "s3://bucket/11/2/files/a.csv" "a.csv") VNone empty_world
  = (Ok {| status_code := 200;
           content := "https://api.pennsieve.io/zipit/discover" |},
     write_disk "a.csv" "https://api.pennsieve.io/zipit/discover"
       (log_http (zipit_request [VStr "files/a.csv"] (VInt 11) (VInt 2))
          empty_world))
  /\ disk_get "a.csv"
       (disk (snd (download_file (echo 11 64 "pipe") (service VNone)
                     (file_entry 11 2 "s3://bucket/11/2/files/a.csv" "a.csv")
                     VNone empty_world)))
     = Some "https://api.pennsieve.io/zipit/discover".
Proof.
  apply (download_file_lone_descriptor (echo 11 64 "pipe") (service VNone)
           [("datasetId", VInt 11); ("datasetVersion", VInt 2);
            ("uri", VStr "s3://bucket/11/2/files/a.csv");
            ("name", VStr "a.csv")]
           "a.csv" empty_world (VInt 11, VInt 2) (VStr "files/a.csv")
           {| status_code := 200;
              content := "https://api.pennsieve.io/zipit/discover" |}).
  - reflexivity.
  - reflexivity.
  - reflexivity.
  - reflexivity.
  - reflexivity.
  - reflexivity.
  - reflexivity.
Defined.

(** The write can fail after [open] has created or emptied the file: the
    exception propagates, the request has been sent, and the file is left
    with what reached it. *)
Lemma download_file_write_fails :
  forall env self files name w pairs p paths response e stored,
    rmap dataset_pair files = Ok pairs ->
    set_of [] pairs = Ok [p] ->
    rmap path_of files = Ok paths ->
    requests_post env w (zipit_request paths (fst p) (snd p)) = Ok response ->
    open_error env (log_http (zipit_request paths (fst p) (snd p)) w) name
    = None ->
    write_error env (log_http (zipit_request paths (fst p) (snd p)) w) name
      (content response) = Some (e, stored) ->
    download_file env self (VList files) (VStr name) w
    = (Raise e,
       write_disk name stored
         (log_http (zipit_request paths (fst p) (snd p)) w)).
Proof.
  intros env self files name w pairs p paths response e stored
    Hpairs Hs Hpaths Hpost Hopen Hwrite.
  unfold download_file, bind, lift, call_post, open_write, write_path; simpl.
  rewrite Hpairs, Hs, Hpaths; simpl.
  now rewrite Hpost, Hopen, Hwrite.
Qed.

Example download_file_disk_full :
  download_file (echo 11 8 "pipe") (service VNone)
    (file_entry 11 2 "s3://bucket/11/2/files/a.csv" "a.csv")
    (VStr "out.zip") empty_world
  = (Raise (Foreign "OSError"),
     write_disk "out.zip" "https://"
       (log_http (zipit_request [VStr "files/a.csv"] (VInt 11) (VInt 2))
          empty_world)).
Proof. reflexivity. Qed.

(** ** More on the search operations *)

Lemma filename_of_errors (x : value) (e : exc) :
  filename_of x = Raise e ->
  e = TypeError \/ e = KeyError "uri" \/ e = AttributeError.
Proof.
  unfold filename_of. destruct x as [| | | | | d]; simpl;
    try (intros H; inversion H; now auto).
  destruct (lookup "uri" d) as [[| b | z | uri | l | d'] |]; simpl;
    intros H; inversion H; auto.
Qed.

Lemma filename_is_path (x name : value) :
  filename_of x = Ok name -> path_of x = Ok name.
Proof.
  unfold filename_of, path_of. destruct x as [| | | | | d]; simpl;
    try discriminate.
  destruct (lookup "uri" d) as [[| b | z | uri | l | d'] |]; simpl;
    try discriminate.
  trivial.
Qed.

(** X12: the names [list_filenames] returns are the paths [download_file]
    puts in its request for the same entries. *)
Theorem list_filenames_names_are_download_paths :
  forall env self limit offset file_type query organization organization_id
         dataset_id w w' items names,
    list_files env self limit offset file_type query organization
      organization_id dataset_id w = (Ok (VList items), w') ->
    fst (list_filenames env self limit offset file_type query organization
           organization_id dataset_id w) = Ok (VList names) ->
    rmap path_of items = Ok names.
Proof.
  intros until names. intros Hfiles. rewrite list_filenames_run, Hfiles.
  cbn [fst rbind iter].
  destruct (rmap filename_of items) as [names' | e] eqn:Hnames;
    cbn [rbind]; [| discriminate].
  intros H; inversion H; subst names'.
  apply (rmap_impl filename_of); [| assumption].
  intros x y _. apply filename_is_path.
Qed.

Lemma list_filenames_names_are_download_paths_witness :
  rmap path_of
    [file_entry 11 2 "s3://bucket/11/2/files/a/b.csv" "b.csv";
     file_entry 11 2 "s3://bucket/11/2/files/c.csv" "c.csv"]
  = Ok [VStr "files/a/b.csv"; VStr "files/c.csv"].
Proof.
  apply (list_filenames_names_are_download_paths
           (double
              (files_body
                 [file_entry 11 2 "s3://bucket/11/2/files/a/b.csv" "b.csv";
                  file_entry 11 2 "s3://bucket/11/2/files/c.csv" "c.csv"])
              archive)
           (service VNone) None None None None None None None empty_world
           (log_agent
              (AgentGet files_url default_headers
                 (list_files_params None None None None None None None))
              empty_world)).
  - reflexivity.
  - reflexivity.
Defined.

(** X13: how [list_files] fails.  What the agent raises is raised; an
    answer that is not a mapping is a [TypeError]; a mapping without
    [files] is [KeyError] on ["files"].  The GET has been made in each
    case. *)
Theorem list_files_failures :
  forall env self limit offset file_type query organization organization_id
         dataset_id w answer,
    agent_get env w (Pennsieve self) files_url default_headers
      (list_files_params limit offset file_type query organization
         organization_id dataset_id) = answer ->
    (forall e, answer = Raise e ->
       fst (list_files env self limit offset file_type query organization
              organization_id dataset_id w) = Raise e)
    /\ (forall body, answer = Ok body -> is_dict body = false ->
          fst (list_files env self limit offset file_type query organization
                 organization_id dataset_id w) = Raise TypeError)
    /\ (forall entries, answer = Ok (VDict entries) ->
          lookup "files" entries = None ->
          fst (list_files env self limit offset file_type query organization
                 organization_id dataset_id w) = Raise (KeyError "files"))
    /\ snd (list_files env self limit offset file_type query organization
              organization_id dataset_id w)
       = log_agent
           (AgentGet files_url default_headers
              (list_files_params limit offset file_type query organization
                 organization_id dataset_id)) w.
Proof.
  intros until answer. intros Hget. rewrite list_files_run, Hget.
  cbn [fst snd]. repeat split.
  - intros e ->. reflexivity.
  - intros body -> Hbody. destruct body; try reflexivity. discriminate.
  - intros entries -> Hfiles. cbn [rbind getitem]. now rewrite Hfiles.
Qed.

Lemma list_files_failures_witness :
  fst (list_files (double (VList []) archive) (service VNone)
         None None None None None None None empty_world) = Raise TypeError
  /\ fst (list_files (double (VDict [("totalCount", VInt 0)]) archive)
            (service VNone) None None None None None None None empty_world)
     = Raise (KeyError "files").
Proof.
  split.
  - exact (proj1 (proj2
             (list_files_failures (double (VList []) archive) (service VNone)
                None None None None None None None empty_world
                (Ok (VList [])) eq_refl))
             (VList []) eq_refl eq_refl).
  - exact (proj1 (proj2 (proj2
             (list_files_failures
                (double (VDict [("totalCount", VInt 0)]) archive)
                (service VNone)
                None None None None None None None empty_world
                (Ok (VDict [("totalCount", VInt 0)])) eq_refl)))
             [("totalCount", VInt 0)] eq_refl eq_refl).
Defined.

(** X14: one file entry that is not a dict, has no [uri], or has a [uri]
    that is not a string makes [list_filenames] raise ([TypeError],
    [KeyError] on ["uri"], [AttributeError]); no partial list is
    returned. *)
Theorem list_filenames_bad_entry :
  forall env self limit offset file_type query organization organization_id
         dataset_id w w' items x,
    list_files env self limit offset file_type query organization
      organization_id dataset_id w = (Ok (VList items), w') ->
    In x items ->
    is_raise (filename_of x) = true ->
    exists e,
      list_filenames env self limit offset file_type query organization
        organization_id dataset_id w = (Raise e, w')
      /\ (e = TypeError \/ e = KeyError "uri" \/ e = AttributeError).
Proof.
  intros until x. intros Hfiles Hin Hx.
  destruct (rmap_raise_in filename_of items x Hin Hx) as [y [e [_ [Hy Hr]]]].
  exists e. split; [| now apply (filename_of_errors y)].
  rewrite list_filenames_run, Hfiles. cbn [fst snd rbind iter].
  now rewrite Hr.
Qed.

Lemma list_filenames_bad_entry_witness :
  exists e,
    list_filenames
      (double
         (files_body
            [file_entry 11 2 "s3://bucket/11/2/files/a.csv" "a.csv";
             VDict [("name", VStr "b.csv")]]) archive)
      (service VNone) None None None None None None None empty_world
    = (Raise e,
       log_agent
         (AgentGet files_url default_headers
            (list_files_params None None None None None None None))
         empty_world)
    /\ (e = TypeError \/ e = KeyError "uri" \/ e = AttributeError).
Proof.
  apply (list_filenames_bad_entry
           (double
              (files_body
                 [file_entry 11 2 "s3://bucket/11/2/files/a.csv" "a.csv";
                  VDict [("name", VStr "b.csv")]]) archive)
           (service VNone) None None None None None None None empty_world
           (log_agent
              (AgentGet files_url default_headers
                 (list_files_params None None None None None None None))
              empty_world)
           [file_entry 11 2 "s3://bucket/11/2/files/a.csv" "a.csv";
            VDict [("name", VStr "b.csv")]]
           (VDict [("name", VStr "b.csv")])).
  - reflexivity.
  - right; left; reflexivity.
  - reflexivity.
Defined.

(** X15: [list_filenames] makes the one GET of [list_files], with the
    same parameters whichever of them were given, and changes nothing
    else; when [list_files] raises, it raises the same. *)
Theorem list_filenames_one_get :
  forall env self limit offset file_type query organization organization_id
         dataset_id w,
    snd (list_filenames env self limit offset file_type query organization
           organization_id dataset_id w)
    = log_agent
        (AgentGet files_url default_headers
           (list_files_params limit offset file_type query organization
              organization_id dataset_id)) w
    /\ (is_raise (fst (list_files env self limit offset file_type query
                         organization organization_id dataset_id w)) = false
        \/ fst (list_filenames env self limit offset file_type query
                  organization organization_id dataset_id w)
           = fst (list_files env self limit offset file_type query
                    organization organization_id dataset_id w)).
Proof.
  intros. rewrite list_filenames_run. cbn [fst snd]. split.
  - now rewrite list_files_run.
  - destruct (fst (list_files env self limit offset file_type query
                     organization organization_id dataset_id w));
      [now left | now right].
Qed.

(** ** More on the profile *)

(** X16: constructing with [connect=True] is constructing with
    [connect=False] and then calling [connect()]. *)
Theorem init_connect_composes :
  forall env config w,
    init env config true w
    = (self <- init env config false ;; connect env self ;;; ret self) w.
Proof.
  intros env config w. unfold init, bind, new_agent, lift, ret.
  destruct (agent_new env w) as [h | e]; [| reflexivity].
  destruct (negb (is_none config)).
  - destruct (get config "pennsieve_profile_name") as [p | e]; [| reflexivity].
    destruct (str_add "Profile: " p); [| reflexivity].
    now destruct (connect env _ (log_agent AgentNew w)) as [[h' | e] w2].
  - now destruct (connect env _ (log_agent AgentNew w)) as [[h' | e] w2].
Qed.

(** X17: an instance exists only with a profile name that is [None],
    from no configuration, or a string, from a configuration dict that has
    one under [pennsieve_profile_name]; its agent is the one constructed. *)
Theorem init_instance_profile :
  forall env config connect_flag w self w',
    init env config connect_flag w = (Ok self, w') ->
    agent_new env w = Ok (Pennsieve self)
    /\ ((config = VNone /\ profile_name self = VNone)
        \/ exists entries name,
             config = VDict entries
             /\ lookup "pennsieve_profile_name" entries = Some (VStr name)
             /\ profile_name self = VStr name).
Proof.
  intros env config connect_flag w self w'.
  unfold init, bind, new_agent, lift, ret.
  destruct (agent_new env w) as [h | e]; [| discriminate].
  assert (Hend : forall s : PennsieveService,
             (let (r, w1) :=
                (if connect_flag
                 then fun w0 =>
                        let (r0, w2) := connect env s w0 in
                        match r0 with
                        | Ok _ => (Ok tt, w2)
                        | Raise e => (Raise e, w2)
                        end
                 else fun w0 => (Ok tt, w0)) (log_agent AgentNew w) in
              match r with
              | Ok _ => (Ok s, w1)
              | Raise e => (@Raise PennsieveService e, w1)
              end) = (Ok self, w') -> s = self).
  { intros s. destruct connect_flag.
    - destruct (connect env s (log_agent AgentNew w)) as [[h' | e] w2];
        intros H; inversion H; reflexivity.
    - intros H; inversion H; reflexivity. }
  destruct config as [| b | z | s | l | entries]; cbn [is_none negb get];
    try discriminate.
  - intros H. apply Hend in H. subst self. split; [reflexivity |]. now left.
  - destruct (lookup "pennsieve_profile_name" entries)
      as [[| b | z | name | l | d] |] eqn:Hname; cbn [str_add];
      try discriminate.
    intros H. apply Hend in H. subst self. split; [reflexivity |].
    right. now exists entries, name.
Qed.

Lemma init_instance_profile_witness :
  agent_new (double VNone archive) empty_world = Ok (Pennsieve (service (VStr "user")))
  /\ ((VDict [("pennsieve_profile_name", VStr "user")] = VNone
       /\ profile_name (service (VStr "user")) = VNone)
      \/ exists entries name,
           VDict [("pennsieve_profile_name", VStr "user")] = VDict entries
           /\ lookup "pennsieve_profile_name" entries = Some (VStr name)
           /\ profile_name (service (VStr "user")) = VStr name).
Proof.
  exact (init_instance_profile (double VNone archive)
           (VDict [("pennsieve_profile_name", VStr "user")]) true empty_world
           (service (VStr "user"))
           (log_agent (AgentConnect (Some (VStr "user")))
              (log_agent AgentNew empty_world))
           eq_refl).
Defined.

(** X18: constructing with [connect=True] from a configuration that names
    a profile constructs the agent and then connects it with that very
    name; when the agent accepts, the instance carries the name. *)
Theorem init_connects_with_configured_profile :
  forall env entries name w h,
    agent_new env w = Ok h ->
    lookup "pennsieve_profile_name" entries = Some (VStr name) ->
    agent_log (snd (init env (VDict entries) true w))
    = agent_log w ++ [AgentNew; AgentConnect (Some (VStr name))]
    /\ (is_raise (agent_connect env (log_agent AgentNew w) h
                    (Some (VStr name))) = true
        \/ fst (init env (VDict entries) true w)
           = Ok {| profile_name := VStr name; Pennsieve := h |}).
Proof.
  intros env entries name w h Hnew Hname.
  unfold init, bind, new_agent, lift, ret. rewrite Hnew.
  cbn [is_none negb get]. rewrite Hname. cbn [str_add].
  unfold connect, bind, call_connect, ret.
  cbn [profile_name Pennsieve is_none negb].
  destruct (agent_connect env (log_agent AgentNew w) h (Some (VStr name)))
    as [[] | e]; cbn [fst snd agent_log log_agent is_raise].
  - split; [now rewrite <- app_assoc | now right].
  - split; [now rewrite <- app_assoc | now left].
Qed.

Lemma init_connects_with_configured_profile_witness :
  agent_log
    (snd (init (double VNone archive)
            (VDict [("pennsieve_profile_name", VStr "user")]) true empty_world))
  = agent_log empty_world ++ [AgentNew; AgentConnect (Some (VStr "user"))]
  /\ (is_raise (agent_connect (double VNone archive)
                  (log_agent AgentNew empty_world) 0%nat
                  (Some (VStr "user"))) = true
      \/ fst (init (double VNone archive)
                (VDict [("pennsieve_profile_name", VStr "user")]) true
                empty_world)
         = Ok {| profile_name := VStr "user"; Pennsieve := 0%nat |}).
Proof.
  apply (init_connects_with_configured_profile (double VNone archive)
           [("pennsieve_profile_name", VStr "user")] "user" empty_world 0%nat).
  - reflexivity.
  - reflexivity.
Defined.
